(** * PIA port forwarding script: a shallow embedding of [pia-script.py]

    The script is sequential Python: it prints to standard output, reads the
    operating system's interface table, one file and one HTTP response, and it
    ends either by falling off [main], by [sys.exit] or with an uncaught
    exception.  The embedding keeps that shape:

    - text is a [string] (the UTF-8 bytes of the Python [str]);
    - the values [json.loads] produces are the inductive [pyval];
    - a computation is a [Proc A]: the texts printed so far together with an
      [outcome] (a value, a [sys.exit] code, or a raised exception);
    - everything the script does not define itself is an input: the operating
      system is a [World], the library functions it calls are a [Library]. *)

From Stdlib Require Import String Ascii List ZArith Lia Bool DecimalString.
From ExtLib Require Import Structures.Monad.
Import ListNotations.
Import MonadNotation.
Open Scope string_scope.
Open Scope Z_scope.
Open Scope monad_scope.

#[local] Set Warnings "-register-all".

(** ** Text *)

Module Text.

(** The characters a Rocq literal cannot hold conveniently. *)
Definition nl_char : ascii := ascii_of_nat 10.
Definition cr_char : ascii := ascii_of_nat 13.
Definition tab_char : ascii := ascii_of_nat 9.
Definition dquote_char : ascii := ascii_of_nat 34.
Definition squote_char : ascii := ascii_of_nat 39.
Definition backslash_char : ascii := ascii_of_nat 92.

Definition nl : string := String nl_char EmptyString.

(** [sep.join (parts)]. *)
Definition join (sep : string) (parts : list string) : string :=
  String.concat sep parts.

(** [c in s] for a one-character [c]. *)
Fixpoint has_char (c : ascii) (s : string) : bool :=
  match s with
  | EmptyString => false
  | String d rest => Ascii.eqb c d || has_char c rest
  end.

(** [needle in hay] for two [str]. *)
Fixpoint has_substring (needle hay : string) : bool :=
  prefix needle hay
  || match hay with
     | EmptyString => false
     | String _ rest => has_substring needle rest
     end.

(** The text [needle] occurs somewhere in [hay]. *)
Definition occurs_in (needle hay : string) : Prop :=
  exists before after, hay = before ++ needle ++ after.

(** ['%s' % n] and ['%d' % n] for an [int]. *)
Definition decimal (n : Z) : string := NilZero.string_of_int (Z.to_int n).

Definition hex_digit (n : nat) : ascii :=
  if Nat.ltb n 10 then ascii_of_nat (48 + n) else ascii_of_nat (87 + n).

(** One character of [repr] of a [str] whose surrounding quote is [quote]:
    the quote and the backslash are escaped, tab, newline and carriage return
    have their letter, the other control characters are written [\xhh]. *)
Definition repr_char (quote c : ascii) : string :=
  let n := nat_of_ascii c in
  if Ascii.eqb c quote || Ascii.eqb c backslash_char
  then String backslash_char (String c EmptyString)
  else if Ascii.eqb c tab_char then String backslash_char "t"
  else if Ascii.eqb c nl_char then String backslash_char "n"
  else if Ascii.eqb c cr_char then String backslash_char "r"
  else if Nat.ltb n 32 || Nat.eqb n 127
  then String backslash_char
         (String "x" (String (hex_digit (n / 16)) (String (hex_digit (n mod 16)) EmptyString)))
  else String c EmptyString.

Fixpoint repr_body (quote : ascii) (s : string) : string :=
  match s with
  | EmptyString => EmptyString
  | String c rest => repr_char quote c ++ repr_body quote rest
  end.

(** [repr (s)] for a [str]: single quotes, unless the text holds a single quote
    and no double quote.  Python also escapes the characters above 127 that
    are not printable (U+00A0 is written [\xa0]); which ones those are is a
    table of the Unicode database, and texts that hold one are outside this
    model, which keeps every byte above 127. *)
Definition repr_str (s : string) : string :=
  let quote :=
    if has_char squote_char s && negb (has_char dquote_char s)
    then dquote_char else squote_char in
  String quote (repr_body quote s ++ String quote EmptyString).

(** Text [repr] leaves as it is: printable ASCII without quote or backslash. *)
Definition plain_char (c : ascii) : bool :=
  let n := nat_of_ascii c in
  Nat.leb 32 n && Nat.ltb n 127
  && negb (Ascii.eqb c squote_char) && negb (Ascii.eqb c dquote_char)
  && negb (Ascii.eqb c backslash_char).

Fixpoint plain (s : string) : bool :=
  match s with
  | EmptyString => true
  | String c rest => plain_char c && plain rest
  end.

End Text.

Import Text.

(** ** Python values *)

(** What [json.loads] returns.  A [float] is carried as the text Python prints
  for it; a [dict] keeps its items in insertion order, and its keys are [str]
  (JSON has no other keys). *)
Inductive pyval : Type :=
| PNone
| PBool (b : bool)
| PInt (n : Z)
| PFloat (text : string)
| PStr (s : string)
| PList (elements : list pyval)
| PDict (items : list (string * pyval)).

(** [repr (v)]. *)
Fixpoint py_repr (v : pyval) : string :=
match v with
| PNone => "None"
| PBool true => "True"
| PBool false => "False"
| PInt n => decimal n
| PFloat text => text
| PStr s => repr_str s
| PList elements => "[" ++ join ", " (map py_repr elements) ++ "]"
| PDict items =>
    "{" ++ join ", " (map (fun kv => let '(k, x) := kv in repr_str k ++ ": " ++ py_repr x) items)
        ++ "}"
end.

(** [str (v)], which is also what ['%s' % v] formats [v] to. *)
Definition py_str (v : pyval) : string :=
match v with
| PStr s => s
| _ => py_repr v
end.

(** *** Dictionaries *)

Section Dict.
Context {V : Type}.

Definition dict : Type := list (string * V).

(** [d.get (k)]: [None] when the key is absent. *)
Fixpoint dict_get (k : string) (d : dict) : option V :=
  match d with
  | [] => None
  | (k', x) :: rest => if String.eqb k k' then Some x else dict_get k rest
  end.

(** [k in d]. *)
Definition dict_contains (k : string) (d : dict) : bool :=
  match dict_get k d with Some _ => true | None => false end.

(** [d [k] = x]: an existing key keeps its place, a new one goes last. *)
Fixpoint dict_set (k : string) (x : V) (d : dict) : dict :=
  match d with
  | [] => [(k, x)]
  | (k', y) :: rest =>
      if String.eqb k k' then (k', x) :: rest else (k', y) :: dict_set k x rest
  end.

(** [d.keys ()]. *)
Definition dict_keys (d : dict) : list string := map fst d.

End Dict.

Arguments dict V : clear implicits.

(** [keys & others] on key views and sets, as the list of the common keys. *)
Definition keys_and (keys others : list string) : list string :=
  filter (fun k => existsb (String.eqb k) others) keys.

(** Truth value of a list or set: non-empty. *)
Definition truthy {A : Type} (l : list A) : bool :=
  match l with [] => false | _ => true end.

(** ** Exceptions *)

(** The exception classes the script can meet, with the part of Python's class
    hierarchy that its [except] clauses see. *)
Inductive exc_class : Type :=
| OSError | FileNotFoundError | PermissionError | TimeoutError
| URLError | HTTPError
| ValueError | JSONDecodeError | UnicodeDecodeError
| LookupError | KeyError | IndexError
| TypeError | AttributeError | UnboundLocalError
| OtherError (name : string).

(** The direct base class, below [Exception]. *)
Definition base_class (c : exc_class) : option exc_class :=
  match c with
  | FileNotFoundError | PermissionError | TimeoutError | URLError => Some OSError
  | HTTPError => Some URLError
  | JSONDecodeError | UnicodeDecodeError => Some ValueError
  | KeyError | IndexError => Some LookupError
  | _ => None
  end.

Definition exc_class_eqb (c d : exc_class) : bool :=
  match c, d with
  | OSError, OSError | FileNotFoundError, FileNotFoundError
  | PermissionError, PermissionError | TimeoutError, TimeoutError
  | URLError, URLError | HTTPError, HTTPError
  | ValueError, ValueError | JSONDecodeError, JSONDecodeError
  | UnicodeDecodeError, UnicodeDecodeError
  | LookupError, LookupError | KeyError, KeyError | IndexError, IndexError
  | TypeError, TypeError | AttributeError, AttributeError
  | UnboundLocalError, UnboundLocalError => true
  | OtherError n, OtherError m => String.eqb n m
  | _, _ => false
  end.

(** [issubclass (c, d)]; the hierarchy modelled here is two levels deep. *)
Definition issubclass (c d : exc_class) : bool :=
  exc_class_eqb c d
  || match base_class c with
     | None => false
     | Some b =>
         exc_class_eqb b d
         || match base_class b with
            | None => false
            | Some b' => exc_class_eqb b' d
            end
     end.

(** An exception object: its class and what [str] prints for it. *)
Record exc : Type := mkExc { exc_cls : exc_class; exc_str : string }.

Definition isinstance (e : exc) (c : exc_class) : bool := issubclass (exc_cls e) c.

(** [d [k]] on a missing key raises [KeyError (k)], whose text is [repr (k)]. *)
Definition key_error (k : string) : exc := mkExc KeyError (repr_str k).

(** ** Processes *)

(** How a computation ends: with a value, through [sys.exit], or with an
    exception on its way up. *)
Inductive outcome (A : Type) : Type :=
| Ret (a : A)
| Exit (code : Z)
| Raised (e : exc).

Arguments Ret {A} a.
Arguments Exit {A} code.
Arguments Raised {A} e.

(** The texts printed, one for each call of [print], in order, and the outcome. *)
Definition Proc (A : Type) : Type := (list string * outcome A)%type.

Definition proc_bind {A B : Type} (m : Proc A) (k : A -> Proc B) : Proc B :=
  match m with
  | (out, Ret a) => let (out', r) := k a in ((out ++ out')%list, r)
  | (out, Exit code) => (out, Exit code)
  | (out, Raised e) => (out, Raised e)
  end.

#[export] Instance Monad_Proc : Monad Proc :=
  {| ret := fun _ a => ([], Ret a); bind := @proc_bind |}.

(** [print (line)]; [print ()] is [print_ EmptyString]. *)
Definition print_ (line : string) : Proc unit := ([line], Ret tt).

(** [sys.exit (code)]. *)
Definition sys_exit {A : Type} (code : Z) : Proc A := ([], Exit code).

(** [raise e]. *)
Definition raise {A : Type} (e : exc) : Proc A := ([], Raised e).

(** A library call that returns or raises. *)
Definition call {A : Type} (r : exc + A) : Proc A :=
  match r with
  | inl e => raise e
  | inr a => ret a
  end.

(** [try: body / except (classes) as e: handler / ...]: the first clause one of
    whose classes the exception is an instance of runs; an exception no clause
    names, and [sys.exit], go on up. *)
Definition except_clause (A : Type) : Type := (list exc_class * (exc -> Proc A))%type.

Fixpoint find_clause {A : Type} (e : exc) (clauses : list (except_clause A))
  : option (exc -> Proc A) :=
  match clauses with
  | [] => None
  | (classes, handler) :: rest =>
      if existsb (isinstance e) classes then Some handler else find_clause e rest
  end.

Definition try_except {A : Type} (body : Proc A) (clauses : list (except_clause A)) : Proc A :=
  match body with
  | (out, Raised e) =>
      match find_clause e clauses with
      | Some handler => let (out', r) := handler e in ((out ++ out')%list, r)
      | None => (out, Raised e)
      end
  | done => done
  end.

(** The largest index of a sequence, [sys.maxsize], on a 64-bit build. *)
Definition index_max : Z := 9223372036854775807.

(** [l [i]] on a list: an [int] that is no index-sized integer raises
    [IndexError] at once; a negative index counts from the end, an index out of
    range raises [IndexError]. *)
Definition list_getitem {A : Type} (l : list A) (i : Z) : exc + A :=
  if (i <? - index_max - 1) || (index_max <? i)
  then inl (mkExc IndexError "cannot fit 'int' into an index-sized integer")
  else
    let n := Z.of_nat (length l) in
    let j := if i <? 0 then i + n else i in
    match (if (0 <=? j) && (j <? n) then nth_error l (Z.to_nat j) else None) with
    | Some a => inr a
    | None => inl (mkExc IndexError "list index out of range")
    end.

(** [d [k]] on a [dict]. *)
Definition dict_getitem {V : Type} (d : dict V) (k : string) : exc + V :=
  match dict_get k d with
  | Some x => inr x
  | None => inl (key_error k)
  end.

(** What Python calls the type of a value, for the text of a [TypeError]. *)
Definition type_name (v : pyval) : string :=
  match v with
  | PNone => "NoneType"
  | PBool _ => "bool"
  | PInt _ => "int"
  | PFloat _ => "float"
  | PStr _ => "str"
  | PList _ => "list"
  | PDict _ => "dict"
  end.

Definition is_str (s : string) (v : pyval) : bool :=
  match v with
  | PStr t => String.eqb s t
  | _ => false
  end.

(** [k in obj] for a [str] [k]: a key of a [dict], an element of a [list], a
    substring of a [str]; the other values are not iterable. *)
Definition py_contains (k : string) (obj : pyval) : exc + bool :=
  match obj with
  | PDict items => inr (dict_contains k items)
  | PList elements => inr (existsb (is_str k) elements)
  | PStr s => inr (has_substring k s)
  | _ => inl (mkExc TypeError ("argument of type '" ++ type_name obj ++ "' is not iterable"))
  end.

(** [obj [k]] for a [str] [k]. *)
Definition py_getitem (obj : pyval) (k : string) : exc + pyval :=
  match obj with
  | PDict items => dict_getitem items k
  | PList _ => inl (mkExc TypeError "list indices must be integers or slices, not str")
  | PStr _ => inl (mkExc TypeError "string indices must be integers")
  | _ => inl (mkExc TypeError ("'" ++ type_name obj ++ "' object is not subscriptable"))
  end.

(** [obj [k] = x] for a [str] [k]: the items of the updated [dict]. *)
Definition py_setitem (obj : pyval) (k : string) (x : pyval) : exc + dict pyval :=
  match obj with
  | PDict items => inr (dict_set k x items)
  | PList _ => inl (mkExc TypeError "list indices must be integers or slices, not str")
  | _ => inl (mkExc TypeError
                ("'" ++ type_name obj ++ "' object does not support item assignment"))
  end.

(** [obj.items ()]. *)
Definition py_items (obj : pyval) : exc + dict pyval :=
  match obj with
  | PDict items => inr items
  | _ => inl (mkExc AttributeError
                ("'" ++ type_name obj ++ "' object has no attribute 'items'"))
  end.

(** A local variable read before any assignment to it. *)
Definition unbound (name : string) : exc :=
  mkExc UnboundLocalError
    ("local variable '" ++ name ++ "' referenced before assignment").

Definition bound {A : Type} (name : string) (x : option A) : Proc A :=
  match x with
  | Some a => ret a
  | None => raise (unbound name)
  end.

(** ** The environment *)

(** One address of an interface as [netifaces] reports it: a [dict] with the
    keys [addr], [netmask] and [broadcast] or [peer], all text. *)
Definition address : Type := dict string.

Definition pyval_of_address (a : address) : pyval :=
  PDict (map (fun kv => let '(k, x) := kv in (k, PStr x)) a).

(** [netifaces.AF_INET], the number of the IPv4 family. *)
Definition AF_INET : Z := 2.

(** The address families of one interface: family number to address list. *)
Definition families : Type := list (Z * list address).

Fixpoint families_get (family : Z) (t : families) : option (list address) :=
  match t with
  | [] => None
  | (f, l) :: rest => if Z.eqb family f then Some l else families_get family rest
  end.

(** [family in t]. *)
Definition families_contains (family : Z) (t : families) : bool :=
  match families_get family t with Some _ => true | None => false end.

(** [t [family]]. *)
Definition families_getitem (t : families) (family : Z) : exc + list address :=
  match families_get family t with
  | Some l => inr l
  | None => inl (mkExc KeyError (decimal family))
  end.

(** An open file: what [read ()] gives. *)
Record file : Type := mkFile { file_read : exc + string }.

(** An open HTTP response: its body, and the charset of its content type. *)
Record connection : Type := mkConnection {
  conn_read : exc + string;
  conn_content_charset : option string
}.

(** The operating system as the script sees it. *)
Record World : Type := mkWorld {
  os_interfaces : dict families;
  fs_open : string -> exc + file;
  net_urlopen : string -> string -> Z -> exc + connection
}.

(** The library functions the script calls and does not define. *)
Record Library : Type := mkLibrary {
  json_loads : string -> exc + pyval;
  bytes_decode : string -> string -> exc + string;
  unquote : string -> string;
  urlencode : pyval -> exc + string
}.

(** [netifaces.interfaces ()]. *)
Definition netifaces_interfaces (w : World) : list string := dict_keys (os_interfaces w).

(** [netifaces.ifaddresses (interface)]. *)
Definition netifaces_ifaddresses (w : World) (interface : string) : exc + families :=
  match dict_get interface (os_interfaces w) with
  | Some t => inr t
  | None => inl (mkExc ValueError "You must specify a valid interface name.")
  end.

(** ** The script *)

(** Metadata *)
Definition __title__ : string := "Private Internet Access Port Forwarding Script".
Definition __host__ : string := "https://github.com/Favorablestream".
Definition __copyright__ : string := "Copyright 2016 Kieran Gillibrand".
Definition __license__ : string := "MIT License (LICENSE.txt)".
Definition __version__ : string := "1.2".
Definition __date__ : string := "23/12/2016".

(** Default encoding to use for decoding the API response if the server does
    not give us an encoding header. *)
Definition DEFAULT_ENCODING : string := "utf-8".

(** [IOError] is another name of [OSError]. *)
Definition IOError : exc_class := OSError.

Section Script.

(** The library, the operating system, and the global [DEBUG], which [main]
    sets from the command line before anything reads it. *)
Variable lib : Library.
Variable w : World.
Variable DEBUG : bool.

(** Print a message if debugging statements are enabled. *)
Definition debugPrint (message : option string) (printNewline : bool) : Proc unit :=
  match message with
  | None => ret tt
  | Some text =>
      if negb DEBUG then ret tt
      else
        print_ text ;;
        (if printNewline then print_ EmptyString else ret tt)
  end.

(** Print a message if debugging statements are not enabled. *)
Definition nonDebugPrint (message : option string) (printNewline : bool) : Proc unit :=
  match message with
  | None => ret tt
  | Some text =>
      if DEBUG then ret tt
      else
        print_ text ;;
        (if printNewline then print_ EmptyString else ret tt)
  end.

(** Concatenate a message string to a list of elements, one per line. *)
Definition concatStringToList (message : string) (elements : list pyval) : string :=
  let stringElements := map py_str elements in
  message ++ join nl stringElements.

(** The descriptions of the exit codes, indexed by the code. *)
Definition exitCodes : list string :=
  [ "main (): Success, normal exit";
    "main (): VPN is not connected";
    "getCredentials (): Credentials file cannot be opened";
    "getCredentials (): JSON credentials are malformed";
    "getCredentials (): Credentials file is missing required keys";
    "getIPAddress (): Found more addresses than expected";
    "forwardPort (): Error posting to API endpoint";
    "forwardPort (): API JSON response is malformed";
    "main (): API returned an error response";
    "main (): API returned an unknown response" ].

(** Prints an error message, exception message (if provided), and exits with
    the given exit code. *)
Definition handleError (message : string) (exitCode : Z) (exception : option exc)
  : Proc unit :=
  print_ message ;;
  print_ EmptyString ;;
  match exception with
  | Some e => print_ (exc_str e) ;; print_ EmptyString
  | None => ret tt
  end ;;
  description <- call (list_getitem exitCodes exitCode) ;;
  print_ ("Exiting with exit status: " ++ decimal exitCode ++ ", " ++ description) ;;
  sys_exit exitCode.

(** Checks if the VPN is connected. *)
Definition isConnected (interface : string) : Proc bool :=
  let exists_ := existsb (String.eqb interface) (netifaces_interfaces w) in
  if negb exists_ then ret false
  else
    addressFamilies <- call (netifaces_ifaddresses w interface) ;;
    let up := families_contains AF_INET addressFamilies in
    (if up then debugPrint (Some ("Interface: '" ++ interface ++ "' is connected")) true
     else ret tt) ;;
    ret up.

(** Returns the IPV4 address of the interface. *)
Definition getIPAddress (interface : string) : Proc string :=
  let ADDRESS_LIMIT := 1 in
  addressFamilies <- call (netifaces_ifaddresses w interface) ;;
  addressList <- call (families_getitem addressFamilies AF_INET) ;;
  let addresses := Z.of_nat (length addressList) in
  (if addresses >? ADDRESS_LIMIT
   then
     let message :=
       concatStringToList
         ("Receieved " ++ decimal addresses ++ " IPV4 address(es) for your VPN interface: '"
          ++ interface ++ "', expected: " ++ decimal ADDRESS_LIMIT ++ nl
          ++ "Addresses:" ++ nl ++ nl)
         (map pyval_of_address addressList) in
     handleError message 5 None
   else ret tt) ;;
  address <- call (list_getitem addressList 0) ;;
  ip <- call (dict_getitem address "addr") ;;
  debugPrint (Some ("Local IP for VPN interface '" ++ interface ++ "': " ++ ip)) true ;;
  ret ip.

(** Retrieves PIA API credentials from a file and loads them into a JSON
    dictionary.  Had a handler of the [try] returned, [credentials] would be
    unbound after it. *)
Definition getCredentials (credentialsPath interface : string) : Proc pyval :=
  loaded <-
    try_except
      (credentialsFile <- call (fs_open w credentialsPath) ;;
       debugPrint (Some ("Using credentials file: '" ++ credentialsPath ++ "'")) true ;;
       text <- call (file_read credentialsFile) ;;
       credentials <- call (json_loads lib text) ;;
       ret (Some credentials))
      [ ([IOError; OSError],
         fun fileError =>
           handleError
             ("Credentials file: '" ++ credentialsPath ++ "' does not exist or cannot be opened")
             2 (Some fileError) ;;
           ret None);
        ([ValueError],
         fun jsonError =>
           handleError
             ("JSON file: '" ++ credentialsPath
              ++ "' is malformed, refer to the README or the exception message below for the correct format")
             3 (Some jsonError) ;;
           ret None) ] ;;
  ip <- getIPAddress interface ;;
  credentials <- bound "credentials" loaded ;;
  credentials <- call (py_setitem credentials "local_ip" (PStr ip)) ;;
  (if negb (truthy (keys_and (dict_keys credentials) ["user"; "pass"; "client_id"]))
   then
     handleError
       ("Credentials file: " ++ credentialsPath
        ++ " is missing required keys. See the required format in the README")
       4 None
   else ret tt) ;;
  user <- call (dict_getitem credentials "user") ;;
  debugPrint (Some ("Username: '" ++ py_str user ++ "'")) false ;;
  pass <- call (dict_getitem credentials "pass") ;;
  debugPrint (Some ("Password: '" ++ py_str pass ++ "'")) false ;;
  client_id <- call (dict_getitem credentials "client_id") ;;
  debugPrint (Some ("Client ID: '" ++ py_str client_id ++ "'")) true ;;
  ret (PDict credentials).

(** Contacts the PIA API to enable port forwarding and returns the parsed API
    response.  [str.encode] is the identity on text held as its UTF-8 bytes. *)
Definition forwardPort (credentials : pyval) (endpointURL : string) (timeout : Z)
  : Proc pyval :=
  debugPrint (Some ("Posting to endpoint: '" ++ endpointURL ++ "'")) true ;;
  parameters <- call (urlencode lib credentials) ;;
  let parametersBytes := parameters in
  received <-
    try_except
      (connection <- call (net_urlopen w endpointURL parametersBytes timeout) ;;
       response <- call (conn_read connection) ;;
       let responseEncoding :=
         match conn_content_charset connection with
         | None => DEFAULT_ENCODING
         | Some charset => charset
         end in
       ret (Some (response, responseEncoding)))
      [ ([URLError; HTTPError],
         fun urlError =>
           handleError ("Error posting to endpoint URL: " ++ endpointURL) 6 (Some urlError) ;;
           ret None) ] ;;
  received <- bound "response" received ;;
  let '(response, responseEncoding) := received in
  responseString <- call (bytes_decode lib response responseEncoding) ;;
  let nonHTTPResponse := unquote lib responseString in
  debugPrint (Some ("Decoded API response bytes as: '" ++ responseEncoding ++ "'")) true ;;
  debugPrint (Some ("API response JSON: '" ++ nonHTTPResponse ++ "'")) true ;;
  try_except
    (call (json_loads lib nonHTTPResponse))
    [ ([ValueError],
       fun jsonError =>
         handleError
           ("The API response is malformed, refer to the response text and the exception message below"
            ++ nl ++ nl ++ "Response text: " ++ nonHTTPResponse)
           7 (Some jsonError) ;;
         ret PNone) ].

(** The end of [main]: what it does with the response of [forwardPort]
    (the standard response, the error response, the unknown key). *)
Definition main_response (response : pyval) : Proc unit :=
  has_port <- call (py_contains "port" response) ;;
  if has_port
  then
    port <- call (py_getitem response "port") ;;
    print_ ("Forwarded port: " ++ py_str port) ;;
    print_ EmptyString
  else
    has_error <- call (py_contains "error" response) ;;
    if has_error
    then
      error <- call (py_getitem response "error") ;;
      handleError ("API returned an error: " ++ py_str error) 8 None
    else
      items <- call (py_items response) ;;
      let keyValues :=
        map (fun kv => let '(key, value) := kv in PStr (key ++ ": " ++ py_str value)) items in
      let message :=
        concatStringToList ("API returned unknown key/value pair(s):" ++ nl ++ nl) keyValues in
      handleError message 9 None.

End Script.

(** The command line as [argparse] hands it over. *)
Record Args : Type := mkArgs { debug : bool; credentialsfile : string }.

(** Main method; it starts from the parsed command line. *)
Definition main (lib : Library) (w : World) (args : Args) : Proc unit :=
  let ENDPOINT := "https://www.privateinternetaccess.com/vpninfo/port_forward_assignment" in
  let INTERFACE := "tun0" in
  let TIMEOUT := 10 in
  print_ EmptyString ;;
  print_ (__title__ ++ " - " ++ __copyright__ ++ ", " ++ __license__) ;;
  print_ ("Version: " ++ __version__ ++ ", " ++ __date__) ;;
  print_ __host__ ;;
  print_ EmptyString ;;
  let DEBUG := debug args in
  debugPrint DEBUG (Some "Debugging print statements enabled") true ;;
  connected <- isConnected w DEBUG INTERFACE ;;
  (if negb connected
   then
     handleError
       ("VPN interface: '" ++ INTERFACE ++ "' is not connected, please connect it first" ++ nl
        ++ "Be sure the INTERFACE variable is correctly set if your VPN is actually connected")
       1 None
   else ret tt) ;;
  credentials <- getCredentials lib w DEBUG (credentialsfile args) INTERFACE ;;
  response <- forwardPort lib w DEBUG credentials ENDPOINT TIMEOUT ;;
  nonDebugPrint DEBUG (Some "Response recieved") true ;;
  main_response response ;;
  print_ "Make sure to allow this port in your firewall and configure your applications to use it." ;;
  print_ "Have a nice day :)".

(** [main ()] in full.  Between the banner and the rest stands
    [parser.parse_args ()], which reads the command line of the process:
    argparse hands over the parsed arguments, or it ends the process itself
    (after its help text, or after a usage error), printing what it prints.
    What it does is an input here, [parse_args]; [main] above is this function
    on a command line that has parsed. *)
Definition main_with_parser (lib : Library) (w : World) (parse_args : Proc Args)
  : Proc unit :=
  let ENDPOINT := "https://www.privateinternetaccess.com/vpninfo/port_forward_assignment" in
  let INTERFACE := "tun0" in
  let TIMEOUT := 10 in
  print_ EmptyString ;;
  print_ (__title__ ++ " - " ++ __copyright__ ++ ", " ++ __license__) ;;
  print_ ("Version: " ++ __version__ ++ ", " ++ __date__) ;;
  print_ __host__ ;;
  print_ EmptyString ;;
  args <- parse_args ;;
  let DEBUG := debug args in
  debugPrint DEBUG (Some "Debugging print statements enabled") true ;;
  connected <- isConnected w DEBUG INTERFACE ;;
  (if negb connected
   then
     handleError
       ("VPN interface: '" ++ INTERFACE ++ "' is not connected, please connect it first" ++ nl
        ++ "Be sure the INTERFACE variable is correctly set if your VPN is actually connected")
       1 None
   else ret tt) ;;
  credentials <- getCredentials lib w DEBUG (credentialsfile args) INTERFACE ;;
  response <- forwardPort lib w DEBUG credentials ENDPOINT TIMEOUT ;;
  nonDebugPrint DEBUG (Some "Response recieved") true ;;
  main_response response ;;
  print_ "Make sure to allow this port in your firewall and configure your applications to use it." ;;
  print_ "Have a nice day :)".

(** ** An environment for the examples *)

Module Examples.

Definition q : string := String dquote_char EmptyString.

(** [{"port": 12345}], [{"error": "bad token"}], [{"foo": "bar"}] and three
    credentials files. *)
Definition port_json : string := "{" ++ q ++ "port" ++ q ++ ": 12345}".
Definition error_json : string :=
  "{" ++ q ++ "error" ++ q ++ ": " ++ q ++ "bad token" ++ q ++ "}".
Definition foo_json : string := "{" ++ q ++ "foo" ++ q ++ ": " ++ q ++ "bar" ++ q ++ "}".
Definition full_json : string :=
  "{" ++ q ++ "user" ++ q ++ ": " ++ q ++ "p1234567" ++ q ++ ", "
      ++ q ++ "pass" ++ q ++ ": " ++ q ++ "hunter2" ++ q ++ ", "
      ++ q ++ "client_id" ++ q ++ ": " ++ q ++ "0a1b2c" ++ q ++ "}".
Definition user_only_json : string :=
  "{" ++ q ++ "user" ++ q ++ ": " ++ q ++ "p1234567" ++ q ++ "}".
Definition empty_json : string := "{}".

Definition full_credentials : dict pyval :=
  [("user", PStr "p1234567"); ("pass", PStr "hunter2"); ("client_id", PStr "0a1b2c")].

Definition documents : dict pyval :=
  [ (port_json, PDict [("port", PInt 12345)]);
    (error_json, PDict [("error", PStr "bad token")]);
    (foo_json, PDict [("foo", PStr "bar")]);
    (full_json, PDict full_credentials);
    (user_only_json, PDict [("user", PStr "p1234567")]);
    (empty_json, PDict []) ].

Definition hex_value (c : ascii) : option nat :=
  let n := nat_of_ascii c in
  if Nat.leb 48 n && Nat.leb n 57 then Some (n - 48)%nat
  else if Nat.leb 65 n && Nat.leb n 70 then Some (n - 55)%nat
  else if Nat.leb 97 n && Nat.leb n 102 then Some (n - 87)%nat
  else None.

(** One pass of percent-decoding over the bytes of a text. *)
Fixpoint percent_decode (s : string) : string :=
  match s with
  | EmptyString => EmptyString
  | String c rest =>
      match rest with
      | String a (String b rest') =>
          match Ascii.eqb c "%", hex_value a, hex_value b with
          | true, Some x, Some y => String (ascii_of_nat (16 * x + y)) (percent_decode rest')
          | _, _, _ => String c (percent_decode rest)
          end
      | _ => String c (percent_decode rest)
      end
  end.

(** The library of the examples: [json.loads] knows the documents above,
    [decode] knows UTF-8, [unquote] decodes bytes, and [urlencode] joins the
    items of a [dict] whose texts need no escape. *)
Definition library : Library :=
  {| json_loads := fun text =>
       match dict_get text documents with
       | Some v => inr v
       | None => inl (mkExc JSONDecodeError "Expecting value: line 1 column 1 (char 0)")
       end;
     bytes_decode := fun body encoding =>
       if String.eqb encoding "utf-8" then inr body
       else inl (mkExc LookupError ("unknown encoding: " ++ encoding));
     unquote := percent_decode;
     urlencode := fun v =>
       match v with
       | PDict items =>
           inr (join "&" (map (fun kv => let '(k, x) := kv in k ++ "=" ++ py_str x) items))
       | _ => inl (mkExc TypeError "not a valid non-string sequence or mapping object")
       end |}.

Definition tun0_address : address :=
  [("addr", "10.8.0.6"); ("netmask", "255.255.255.255"); ("peer", "10.8.0.5")].
Definition second_address : address :=
  [("addr", "10.9.0.6"); ("netmask", "255.255.255.255"); ("peer", "10.9.0.5")].
Definition loopback : families :=
  [(AF_INET, [[("addr", "127.0.0.1"); ("netmask", "255.0.0.0"); ("peer", "127.0.0.1")]])].

(** A tunnel with one IPv4 address, one with two, one with none. *)
Definition one_address : dict families := [("lo", loopback); ("tun0", [(AF_INET, [tun0_address])])].
Definition two_addresses : dict families :=
  [("lo", loopback); ("tun0", [(AF_INET, [tun0_address; second_address])])].
Definition no_address : dict families := [("lo", loopback); ("tun0", [(10, [[("addr", "fe80::1")]])])].

Definition files : dict string :=
  [ ("full.json", full_json); ("user.json", user_only_json); ("empty.json", empty_json);
    ("broken.json", "{user: ") ].

(** A connection that ends with the given result. *)
Definition answers (r : exc + connection) : string -> string -> Z -> exc + connection :=
  fun _ _ _ => r.

Definition world (interfaces : dict families) (net : exc + connection) : World :=
  {| os_interfaces := interfaces;
     fs_open := fun path =>
       match dict_get path files with
       | Some text => inr (mkFile (inr text))
       | None =>
           inl (mkExc FileNotFoundError
                  ("[Errno 2] No such file or directory: " ++ repr_str path))
       end;
     net_urlopen := answers net |}.

Definition timed_out : exc := mkExc URLError "<urlopen error timed out>".
Definition replies (body : string) (charset : option string) : exc + connection :=
  inr (mkConnection (inr body) charset).

End Examples.

(** ** Vocabulary of the statements *)

(** What the error reporter prints: the message, the text of the cause if
    there is one, and the exit code with its description, blank lines between. *)
Definition error_report (message : string) (exitCode : Z) (cause : option string)
  (description : string) : list string :=
  [message; EmptyString]
  ++ match cause with
     | Some text => [text; EmptyString]
     | None => []
     end
  ++ ["Exiting with exit status: " ++ decimal exitCode ++ ", " ++ description].

(** The lines a debugging print adds: none unless debugging is on. *)
Definition debug_lines (DEBUG : bool) (lines : list string) : list string :=
  if DEBUG then lines else [].

(** The IPv4 addresses of an interface, given its address families. *)
Definition ipv4_addresses (t : families) : list address :=
  match families_get AF_INET t with
  | Some l => l
  | None => []
  end.

(** What [netifaces] guarantees of the table it returns: a family is listed
    only with at least one address, and an address has its text under [addr]. *)
Definition netifaces_ok (t : families) : bool :=
  forallb (fun fl => negb (Nat.eqb (length (snd fl)) 0)
                     && forallb (dict_contains "addr") (snd fl)) t.

(** The keys the credentials check looks for. *)
Definition required_keys : list string := ["user"; "pass"; "client_id"].

(** What the environment answers to the [try] block of [getCredentials]:
    whether the file opened, and the parsed document or the exception raised
    by [open], [read] or [json.loads]. *)
Definition credentials_read (lib : Library) (w : World) (credentialsPath : string)
  : bool * (exc + pyval) :=
  match fs_open w credentialsPath with
  | inl e => (false, inl e)
  | inr f =>
      match file_read f with
      | inl e => (true, inl e)
      | inr text => (true, json_loads lib text)
      end
  end.

(** The exception the [try] block of [forwardPort] raises, if it raises one:
    that of [urlopen], or that of [read] on the open connection. *)
Definition transport_raises (w : World) (endpointURL parameters : string) (timeout : Z)
  (e : exc) : Prop :=
  net_urlopen w endpointURL parameters timeout = inl e
  \/ exists connection,
       net_urlopen w endpointURL parameters timeout = inr connection
       /\ conn_read connection = inl e.

(** The lines [main] starts with. *)
Definition banner : list string :=
  [ EmptyString;
    "Private Internet Access Port Forwarding Script - Copyright 2016 Kieran Gillibrand, MIT License (LICENSE.txt)";
    "Version: 1.2, 23/12/2016";
    "https://github.com/Favorablestream";
    EmptyString ].

(** Whenever the process [p] ends through [sys.exit], its code is one of [codes]. *)
Definition exits_in {A : Type} (codes : list Z) (p : Proc A) : Prop :=
  forall out code, p = (out, Exit code) -> In code codes.

(** Whenever the process [p] ends through [sys.exit], the last text it printed
    is the exit line of a code of the table, with its description. *)
Definition exit_reported {A : Type} (p : Proc A) : Prop :=
  forall out code,
    p = (out, Exit code) ->
    exists before description,
      nth_error exitCodes (Z.to_nat code) = Some description
      /\ 0 <= code
      /\ out = app before
                 ["Exiting with exit status: " ++ decimal code ++ ", " ++ description].

(** The local constants of [main]. *)
Definition ENDPOINT : string :=
  "https://www.privateinternetaccess.com/vpninfo/port_forward_assignment".
Definition INTERFACE : string := "tun0".
Definition TIMEOUT : Z := 10.

(** * Properties *)

(** ** Text *)

Section TextFacts.

Lemma append_assoc (a b c : string) : (a ++ b) ++ c = a ++ (b ++ c).
Proof. induction a as [|x a IH]; simpl; [reflexivity | now rewrite IH]. Qed.

Lemma append_empty_r (a : string) : a ++ EmptyString = a.
Proof. induction a as [|x a IH]; simpl; [reflexivity | now rewrite IH]. Qed.

Lemma occurs_in_refl (s : string) : occurs_in s s.
Proof. exists EmptyString, EmptyString. simpl. now rewrite append_empty_r. Qed.

Lemma occurs_in_trans (a b c : string) : occurs_in a b -> occurs_in b c -> occurs_in a c.
Proof.
  intros (p & s & ->) (p' & s' & ->).
  exists (p' ++ p), (s ++ s'). now rewrite !append_assoc.
Qed.

Lemma occurs_in_prepend (a p s : string) : occurs_in a s -> occurs_in a (p ++ s).
Proof.
  intros (b & e & ->). exists (p ++ b), e. now rewrite append_assoc.
Qed.

Lemma occurs_in_append (a s e : string) : occurs_in a s -> occurs_in a (s ++ e).
Proof.
  intros (b & e' & ->). exists b, (e' ++ e). now rewrite !append_assoc.
Qed.

(** An element of a joined list occurs in the result. *)
Lemma occurs_in_join (sep x : string) (parts : list string) :
  In x parts -> occurs_in x (join sep parts).
Proof.
  unfold join. induction parts as [|y parts IH]; intros Hin; [contradiction |].
  destruct parts as [|z parts].
  - destruct Hin as [-> | []]. apply occurs_in_refl.
  - change (occurs_in x (y ++ sep ++ String.concat sep (z :: parts))).
    destruct Hin as [-> | Hin].
    + apply occurs_in_append, occurs_in_refl.
    + now apply occurs_in_prepend, occurs_in_prepend, IH.
Qed.

Lemma plain_char_repr (c : ascii) :
  plain_char c = true -> repr_char squote_char c = String c EmptyString.
Proof.
  destruct c as [[] [] [] [] [] [] [] []]; intros H; try discriminate H; reflexivity.
Qed.

Lemma plain_char_not_squote (c : ascii) :
  plain_char c = true -> Ascii.eqb squote_char c = false.
Proof.
  destruct c as [[] [] [] [] [] [] [] []]; intros H; try discriminate H; reflexivity.
Qed.

Lemma plain_repr_body (s : string) : plain s = true -> repr_body squote_char s = s.
Proof.
  induction s as [|c s IH]; cbn [plain repr_body]; [reflexivity |].
  intros [Hc Hs]%andb_prop. now rewrite (plain_char_repr c Hc), IH.
Qed.

Lemma plain_no_squote (s : string) : plain s = true -> has_char squote_char s = false.
Proof.
  induction s as [|c s IH]; cbn [plain has_char]; [reflexivity |].
  intros [Hc Hs]%andb_prop. now rewrite (plain_char_not_squote c Hc), IH.
Qed.

(** [repr] of a plain text is the text between single quotes. *)
Lemma repr_str_plain (s : string) :
  plain s = true -> repr_str s = String squote_char (s ++ String squote_char EmptyString).
Proof.
  intros H. unfold repr_str. rewrite (plain_no_squote s H). cbn [andb].
  now rewrite (plain_repr_body s H).
Qed.

Lemma occurs_in_repr_str (s : string) : plain s = true -> occurs_in s (repr_str s).
Proof.
  intros H. rewrite (repr_str_plain s H).
  exists (String squote_char EmptyString), (String squote_char EmptyString). reflexivity.
Qed.

End TextFacts.

(** ** Dictionaries *)

Section DictFacts.
Context {V : Type}.
Implicit Types (d : dict V) (k : string) (x : V).

Lemma dict_get_In k x d : dict_get k d = Some x -> In (k, x) d.
Proof.
  induction d as [|[k' y] d IH]; simpl; [discriminate |].
  destruct (String.eqb_spec k k') as [-> | _].
  - intros [= ->]. now left.
  - intros H. right. now apply IH.
Qed.

Lemma dict_contains_keys k d : existsb (String.eqb k) (dict_keys d) = dict_contains k d.
Proof.
  unfold dict_contains. induction d as [|[k' y] d IH]; simpl; [reflexivity |].
  destruct (String.eqb k k'); simpl; [reflexivity | exact IH].
Qed.

Lemma dict_get_None_keys k d : dict_get k d = None <-> ~ In k (dict_keys d).
Proof.
  induction d as [|[k' y] d IH]; simpl; [tauto |].
  destruct (String.eqb_spec k k') as [-> | Hne].
  - split; [discriminate | intros H; exfalso; apply H; now left].
  - rewrite IH. split; [intros H [E | Hin]; [now apply Hne | now apply H] | tauto].
Qed.

Lemma dict_get_set_same k x d : dict_get k (dict_set k x d) = Some x.
Proof.
  induction d as [|[k' y] d IH]; simpl.
  - now rewrite String.eqb_refl.
  - destruct (String.eqb k k') eqn:E; simpl; rewrite E; [reflexivity | exact IH].
Qed.

Lemma dict_get_set_other k k' x d :
  k <> k' -> dict_get k' (dict_set k x d) = dict_get k' d.
Proof.
  intros Hne. induction d as [|[k0 y] d IH]; simpl.
  - destruct (String.eqb_spec k' k) as [E | _]; [now subst | reflexivity].
  - destruct (String.eqb_spec k k0) as [-> | _]; simpl.
    + destruct (String.eqb_spec k' k0) as [E | _]; [now subst | reflexivity].
    + destruct (String.eqb k' k0); [reflexivity | exact IH].
Qed.

(** The common keys are empty exactly when no key of [others] is in [d]. *)
Lemma keys_and_nil d (others : list string) :
  keys_and (dict_keys d) others = [] <-> forall k, In k others -> dict_get k d = None.
Proof.
  unfold keys_and. induction d as [|[k' y] d IH]; simpl.
  - split; intros; reflexivity.
  - destruct (existsb (String.eqb k') others) eqn:E.
    + split; [discriminate |]. intros H.
      apply existsb_exists in E as (k & Hin & Hk). apply String.eqb_eq in Hk. subst k'.
      specialize (H k Hin). now rewrite String.eqb_refl in H.
    + rewrite IH. split; intros H k Hin.
      * destruct (String.eqb_spec k k') as [-> | _]; [| now apply H].
        exfalso. assert (existsb (String.eqb k') others = true) as E'.
        { apply existsb_exists. exists k'. split; [exact Hin | apply String.eqb_refl]. }
        congruence.
      * specialize (H k Hin). destruct (String.eqb k k'); [discriminate | exact H].
Qed.

End DictFacts.

Lemma truthy_false {A : Type} (l : list A) : truthy l = false <-> l = [].
Proof. destruct l; simpl; split; intros H; congruence. Qed.

(** ** The error reporter *)

Section ErrorReporter.

Lemma list_getitem_nth {A : Type} (l : list A) (i : Z) (a : A) :
  0 <= i <= index_max -> nth_error l (Z.to_nat i) = Some a -> list_getitem l i = inr a.
Proof.
  intros Hi Hnth. unfold list_getitem.
  assert (Z.to_nat i < length l)%nat as Hlt by (apply nth_error_Some; congruence).
  destruct (Z.ltb_spec i (- index_max - 1)) as [Hsmall | _]; [unfold index_max in *; lia |].
  destruct (Z.ltb_spec index_max i) as [Hbig | _]; [lia |].
  cbn [orb]. cbv zeta.
  destruct (Z.ltb_spec i 0) as [Hneg | _]; [lia |].
  destruct (Z.leb_spec 0 i) as [_ | Hneg]; [| lia].
  destruct (Z.ltb_spec i (Z.of_nat (length l))) as [_ | Hge]; [| lia].
  cbn [andb]. now rewrite Hnth.
Qed.

(** With a code of the table, the reporter prints its report and exits. *)
Lemma handleError_described (message : string) (exitCode : Z) (exception : option exc)
  (description : string) :
  0 <= exitCode ->
  nth_error exitCodes (Z.to_nat exitCode) = Some description ->
  handleError message exitCode exception
  = (error_report message exitCode (option_map exc_str exception) description, Exit exitCode).
Proof.
  intros Hpos Hnth. unfold handleError.
  assert (Z.to_nat exitCode < length exitCodes)%nat as Hlt
    by (apply nth_error_Some; congruence).
  cbn [length exitCodes] in Hlt.
  rewrite (list_getitem_nth exitCodes exitCode description); [| unfold index_max; lia | exact Hnth].
  destruct exception as [e |]; reflexivity.
Qed.

Lemma exitCodes_described (exitCode : Z) :
  0 <= exitCode <= 9 -> exists description, nth_error exitCodes (Z.to_nat exitCode) = Some description.
Proof.
  intros H.
  assert (Z.to_nat exitCode < length exitCodes)%nat as Hlt by (simpl; lia).
  apply nth_error_Some in Hlt.
  destruct (nth_error exitCodes (Z.to_nat exitCode)) as [description |];
    [now exists description | congruence].
Qed.

Lemma handleError_never_returns (message : string) (exitCode : Z) (exception : option exc)
  (out : list string) (a : unit) :
  handleError message exitCode exception <> (out, Ret a).
Proof.
  unfold handleError.
  destruct exception as [e |]; destruct (list_getitem exitCodes exitCode) as [e' | description];
    cbn; intros H; inversion H.
Qed.

(** C10.  Called with a message, one of the exit codes 0 to 9 of the fixed
    table, and possibly a cause, the error reporter prints the message, then
    the text of the cause when there is one, then the exit code with the
    description the table gives at that index, and ends the process with
    exactly that exit code; and whatever it is called with, it does not
    return. *)
Theorem handleError_reports_and_exits (message : string) (exitCode : Z)
  (exception : option exc) :
  (forall out a, handleError message exitCode exception <> (out, Ret a))
  /\ (0 <= exitCode <= 9 ->
      exists description,
        nth_error exitCodes (Z.to_nat exitCode) = Some description
        /\ handleError message exitCode exception
           = (error_report message exitCode (option_map exc_str exception) description,
              Exit exitCode)).
Proof.
  split.
  - intros out a. apply handleError_never_returns.
  - intros Hcode. destruct (exitCodes_described exitCode Hcode) as [description Hnth].
    exists description. split; [exact Hnth |].
    apply handleError_described; [lia | exact Hnth].
Qed.

Lemma handleError_reports_and_exits_witness :
  handleError "VPN is down" 1 (Some (mkExc OSError "no route"))
  = (["VPN is down"; EmptyString; "no route"; EmptyString;
      "Exiting with exit status: 1, main (): VPN is not connected"], Exit 1).
Proof.
  destruct (proj2 (handleError_reports_and_exits
                     "VPN is down" 1 (Some (mkExc OSError "no route"))))
    as (description & Hnth & Hrun); [lia |].
  injection Hnth as <-. exact Hrun.
Defined.

End ErrorReporter.

(** ** The interface inspector *)

Section InterfaceInspector.

Variable w : World.
Variable DEBUG : bool.

Lemma listed_interface (interface : string) :
  In interface (netifaces_interfaces w)
  <-> exists t, dict_get interface (os_interfaces w) = Some t.
Proof.
  unfold netifaces_interfaces. split.
  - intros Hin. destruct (dict_get interface (os_interfaces w)) as [t |] eqn:E.
    + now exists t.
    + apply dict_get_None_keys in E. contradiction.
  - intros [t Ht] .
    destruct (in_dec string_dec interface (dict_keys (os_interfaces w))) as [Hin | Hout];
      [exact Hin |].
    apply dict_get_None_keys in Hout. congruence.
Qed.

Lemma isConnected_unlisted (interface : string) :
  dict_get interface (os_interfaces w) = None ->
  isConnected w DEBUG interface = ([], Ret false).
Proof.
  intros Hget. unfold isConnected, netifaces_interfaces.
  rewrite dict_contains_keys. unfold dict_contains. now rewrite Hget.
Qed.

Lemma isConnected_listed (interface : string) (t : families) :
  dict_get interface (os_interfaces w) = Some t ->
  isConnected w DEBUG interface
  = (if families_contains AF_INET t
     then debug_lines DEBUG ["Interface: '" ++ interface ++ "' is connected"; EmptyString]
     else [],
     Ret (families_contains AF_INET t)).
Proof.
  intros Hget. unfold isConnected, netifaces_interfaces, netifaces_ifaddresses.
  rewrite dict_contains_keys. unfold dict_contains. rewrite Hget.
  cbn [negb call bind ret Monad_Proc proc_bind].
  destruct (families_contains AF_INET t); destruct DEBUG; reflexivity.
Qed.

Lemma netifaces_ok_get (t : families) (f : Z) (l : list address) :
  netifaces_ok t = true -> families_get f t = Some l ->
  l <> [] /\ forall a, In a l -> dict_contains "addr" a = true.
Proof.
  unfold netifaces_ok. induction t as [|[f' l'] t IH]; simpl; [discriminate |].
  intros [[Hlen Haddr]%andb_prop Hrest]%andb_prop.
  destruct (Z.eqb f f').
  - intros [= ->]. split.
    + intros ->. discriminate Hlen.
    + intros a Hin. rewrite forallb_forall in Haddr. now apply Haddr.
  - now apply IH.
Qed.

(** Under [netifaces]' guarantee the IPv4 family is listed exactly when the
    interface has an IPv4 address. *)
Lemma families_contains_ipv4 (t : families) :
  netifaces_ok t = true ->
  families_contains AF_INET t = negb (Nat.eqb (length (ipv4_addresses t)) 0).
Proof.
  intros Hok. unfold families_contains, ipv4_addresses.
  destruct (families_get AF_INET t) as [l |] eqn:E; [| reflexivity].
  destruct (netifaces_ok_get t AF_INET l Hok E) as [Hne _].
  destruct l; [contradiction | reflexivity].
Qed.

Lemma getIPAddress_many (interface : string) (t : families) (l : list address) :
  dict_get interface (os_interfaces w) = Some t ->
  families_get AF_INET t = Some l ->
  (1 < length l)%nat ->
  getIPAddress w DEBUG interface
  = (error_report
       (concatStringToList
          ("Receieved " ++ decimal (Z.of_nat (length l))
           ++ " IPV4 address(es) for your VPN interface: '" ++ interface
           ++ "', expected: 1" ++ nl ++ "Addresses:" ++ nl ++ nl)
          (map pyval_of_address l))
       5 None "getIPAddress (): Found more addresses than expected",
     Exit 5).
Proof.
  intros Hget Hfam Hlen.
  unfold getIPAddress, netifaces_ifaddresses, families_getitem.
  rewrite Hget. cbn [call bind ret Monad_Proc proc_bind]. rewrite Hfam.
  cbn [call bind ret Monad_Proc proc_bind].
  destruct (Z.gtb_spec (Z.of_nat (length l)) 1) as [_ | Hle]; [| lia].
  rewrite (handleError_described _ 5 None "getIPAddress (): Found more addresses than expected");
    [reflexivity | lia | reflexivity].
Qed.

Lemma getIPAddress_single (interface : string) (t : families) (a : address) (text : string) :
  dict_get interface (os_interfaces w) = Some t ->
  families_get AF_INET t = Some [a] ->
  dict_get "addr" a = Some text ->
  getIPAddress w DEBUG interface
  = (debug_lines DEBUG
       ["Local IP for VPN interface '" ++ interface ++ "': " ++ text; EmptyString],
     Ret text).
Proof.
  intros Hget Hfam Haddr.
  unfold getIPAddress, netifaces_ifaddresses, families_getitem, dict_getitem.
  rewrite Hget. cbn [call bind ret Monad_Proc proc_bind]. rewrite Hfam.
  cbn. rewrite Haddr. destruct DEBUG; reflexivity.
Qed.

(** The text form of an address occurs in what [str] prints of its record. *)
Lemma address_text_occurs (a : address) (text : string) :
  dict_get "addr" a = Some text -> plain text = true ->
  occurs_in text (py_str (pyval_of_address a)).
Proof.
  intros Hget Hplain. apply dict_get_In in Hget.
  apply occurs_in_trans with (b := repr_str text); [now apply occurs_in_repr_str |].
  apply occurs_in_trans with (b := repr_str "addr" ++ ": " ++ repr_str text).
  { apply occurs_in_prepend, occurs_in_prepend, occurs_in_refl. }
  unfold pyval_of_address. cbn [py_str py_repr].
  apply (occurs_in_prepend _ "{"), occurs_in_append, occurs_in_join.
  rewrite map_map. apply in_map_iff. exists ("addr", text). split; [reflexivity | exact Hget].
Qed.

Lemma concatStringToList_lists (message : string) (elements : list pyval) (x : pyval) :
  In x elements -> occurs_in (py_str x) (concatStringToList message elements).
Proof.
  intros Hin. unfold concatStringToList.
  apply occurs_in_prepend, occurs_in_join, in_map, Hin.
Qed.

End InterfaceInspector.

Section InterfaceInspectorClaims.

Import Examples.

(** C6.  [isConnected] returns false for an interface that the operating
    system's interface table does not list.  For a listed interface it returns
    true if and only if the interface's address table has an entry for the IPv4
    family, which under [netifaces]' guarantee is to say that the interface has
    at least one IPv4 address; nothing else (no link state) is consulted. *)
Theorem isConnected_iff_ipv4_address (w : World) (DEBUG : bool) (interface : string) :
  (~ In interface (netifaces_interfaces w) ->
   isConnected w DEBUG interface = ([], Ret false))
  /\ (In interface (netifaces_interfaces w) ->
      exists t out b,
        dict_get interface (os_interfaces w) = Some t
        /\ isConnected w DEBUG interface = (out, Ret b)
        /\ (b = true <-> exists l, families_get AF_INET t = Some l)
        /\ (netifaces_ok t = true ->
            (b = true <-> (1 <= length (ipv4_addresses t))%nat))).
Proof.
  split.
  - intros Hout. apply isConnected_unlisted.
    now apply dict_get_None_keys.
  - intros [t Ht]%listed_interface.
    exists t. eexists. exists (families_contains AF_INET t).
    split; [exact Ht |]. split; [now apply isConnected_listed |]. split.
    + unfold families_contains. destruct (families_get AF_INET t) as [l |].
      * split; [intros _; now exists l | reflexivity].
      * split; [discriminate | intros [l Hl]; discriminate Hl].
    + intros Hok. rewrite (families_contains_ipv4 t Hok).
      destruct (ipv4_addresses t); simpl; split; intros H; try lia; congruence.
Qed.

Lemma isConnected_iff_ipv4_address_witness :
  isConnected (world no_address (inl timed_out)) false "eth7" = ([], Ret false)
  /\ exists out, isConnected (world one_address (inl timed_out)) true "tun0" = (out, Ret true).
Proof.
  split.
  - apply (proj1 (isConnected_iff_ipv4_address
                    (world no_address (inl timed_out)) false "eth7")).
    simpl. intros [H | [H | []]]; discriminate H.
  - destruct (proj2 (isConnected_iff_ipv4_address
                       (world one_address (inl timed_out)) true "tun0"))
      as (t & out & b & Ht & Hrun & _ & Hb).
    + simpl. right. left. reflexivity.
    + injection Ht as <-. exists out. rewrite Hrun.
      replace b with true; [reflexivity |].
      symmetry. apply Hb; [reflexivity | simpl; lia].
Defined.

(** C7.  For an interface with N > 1 IPv4 addresses, [getIPAddress] prints a
    diagnostic and ends the process with exit code 5, and the diagnostic holds
    the record of each of the N addresses, hence the text of every address
    (texts made of plain characters, as dotted quads are).  For an interface
    with exactly one IPv4 address it returns the text of that address, it
    prints nothing but its debugging line, and it neither exits nor raises. *)
Theorem getIPAddress_one_or_too_many (w : World) (DEBUG : bool) (interface : string)
  (t : families) (l : list address) :
  dict_get interface (os_interfaces w) = Some t ->
  families_get AF_INET t = Some l ->
  ((1 < length l)%nat ->
   exists message,
     getIPAddress w DEBUG interface
     = ([message; EmptyString;
         "Exiting with exit status: 5, getIPAddress (): Found more addresses than expected"],
        Exit 5)
     /\ (forall a, In a l -> occurs_in (py_str (pyval_of_address a)) message)
     /\ (forall a text, In a l -> dict_get "addr" a = Some text -> plain text = true ->
         occurs_in text message))
  /\ (forall a text, l = [a] -> dict_get "addr" a = Some text ->
      getIPAddress w DEBUG interface
      = (debug_lines DEBUG
           ["Local IP for VPN interface '" ++ interface ++ "': " ++ text; EmptyString],
         Ret text)).
Proof.
  intros Hget Hfam. split.
  - intros Hlen. eexists. split; [| split].
    + rewrite (getIPAddress_many w DEBUG interface t l Hget Hfam Hlen). reflexivity.
    + intros a Hin. apply concatStringToList_lists, in_map, Hin.
    + intros a text Hin Haddr Hplain.
      apply occurs_in_trans with (b := py_str (pyval_of_address a)).
      * now apply address_text_occurs.
      * apply concatStringToList_lists, in_map, Hin.
  - intros a text -> Haddr. now apply getIPAddress_single with (t := t) (a := a).
Qed.

Lemma getIPAddress_one_or_too_many_witness :
  (exists message,
      getIPAddress (world two_addresses (inl timed_out)) false "tun0"
      = ([message; EmptyString;
          "Exiting with exit status: 5, getIPAddress (): Found more addresses than expected"],
         Exit 5)
      /\ occurs_in "10.8.0.6" message /\ occurs_in "10.9.0.6" message)
  /\ getIPAddress (world one_address (inl timed_out)) false "tun0" = ([], Ret "10.8.0.6").
Proof.
  split.
  - destruct (proj1 (getIPAddress_one_or_too_many
                       (world two_addresses (inl timed_out)) false "tun0"
                       [(AF_INET, [tun0_address; second_address])]
                       [tun0_address; second_address] eq_refl eq_refl))
      as (message & Hrun & _ & Htext); [simpl; lia |].
    exists message. split; [exact Hrun |]. split.
    + apply (Htext tun0_address); [now left | reflexivity | reflexivity].
    + apply (Htext second_address); [right; now left | reflexivity | reflexivity].
  - apply (proj2 (getIPAddress_one_or_too_many
                    (world one_address (inl timed_out)) false "tun0"
                    [(AF_INET, [tun0_address])] [tun0_address] eq_refl eq_refl)
             tun0_address "10.8.0.6" eq_refl eq_refl).
Defined.

(** C8.  Once [isConnected] has returned true for an interface, the two lookups
    at the head of [getIPAddress] succeed: the interface has an address table
    and the table has the IPv4 family, so the [KeyError] of a missing family
    cannot happen.  With the addresses [netifaces] reports, [getIPAddress] then
    ends in one of its two intended ways: it returns an address, or it exits
    with code 5. *)
Theorem getIPAddress_lookup_after_isConnected (w : World) (DEBUG : bool)
  (interface : string) (out : list string) :
  isConnected w DEBUG interface = (out, Ret true) ->
  exists t l,
    netifaces_ifaddresses w interface = inr t
    /\ families_getitem t AF_INET = inr l
    /\ (netifaces_ok t = true ->
        exists out',
          (exists ip, getIPAddress w DEBUG interface = (out', Ret ip))
          \/ getIPAddress w DEBUG interface = (out', Exit 5)).
Proof.
  intros Hrun.
  destruct (dict_get interface (os_interfaces w)) as [t |] eqn:Ht.
  2: { rewrite (isConnected_unlisted w DEBUG interface Ht) in Hrun. discriminate Hrun. }
  rewrite (isConnected_listed w DEBUG interface t Ht) in Hrun.
  injection Hrun as _ Hup. unfold families_contains in Hup.
  destruct (families_get AF_INET t) as [l |] eqn:Hl; [| discriminate Hup].
  exists t, l. unfold netifaces_ifaddresses, families_getitem. rewrite Ht, Hl.
  split; [reflexivity |]. split; [reflexivity |].
  intros Hok. destruct (netifaces_ok_get t AF_INET l Hok Hl) as [Hne Haddr].
  destruct l as [|a [|a' l]]; [contradiction | |].
  - specialize (Haddr a (or_introl eq_refl)). unfold dict_contains in Haddr.
    destruct (dict_get "addr" a) as [text |] eqn:Ha; [| discriminate Haddr].
    eexists. left. exists text. now apply getIPAddress_single with (t := t) (a := a).
  - eexists. right. apply getIPAddress_many with (t := t) (l := a :: a' :: l);
      [exact Ht | exact Hl | simpl; lia].
Qed.

Lemma getIPAddress_lookup_after_isConnected_witness :
  exists l,
    families_getitem [(AF_INET, [tun0_address])] AF_INET = inr l
    /\ exists out' r, getIPAddress (world one_address (inl timed_out)) true "tun0" = (out', r)
                      /\ (r = Exit 5 \/ exists ip, r = Ret ip).
Proof.
  destruct (getIPAddress_lookup_after_isConnected
              (world one_address (inl timed_out)) true "tun0"
              ["Interface: 'tun0' is connected"; EmptyString] eq_refl)
    as (t & l & Ht & Hl & Hrun).
  injection Ht as <-. exists l. split; [exact Hl |].
  destruct (Hrun eq_refl) as (out' & [[ip Hip] | Hexit]).
  - exists out', (Ret ip). split; [exact Hip | right; now exists ip].
  - exists out', (Exit 5). split; [exact Hexit | now left].
Defined.

End InterfaceInspectorClaims.

(** ** The response classifier *)

Section ResponseClassifier.

(** The unknown-response message: a heading, then one [key: value] line for
    each item of the response. *)
Lemma unknown_response_message (d : dict pyval) :
  concatStringToList ("API returned unknown key/value pair(s):" ++ nl ++ nl)
    (map (fun kv => let '(key, value) := kv in PStr (key ++ ": " ++ py_str value)) d)
  = ("API returned unknown key/value pair(s):" ++ nl ++ nl)
    ++ join nl (map (fun kv => fst kv ++ ": " ++ py_str (snd kv)) d).
Proof.
  unfold concatStringToList. f_equal. f_equal. rewrite map_map.
  apply map_ext. intros [key value]. reflexivity.
Qed.

(** C1.  On a response that is a JSON object, the end of [main] is a three-way
    dispatch in a fixed order.  With a key [port], the port is printed and
    [main] goes on to its normal end.  Otherwise, with a key [error], the
    process fails with exit code 8 and a message that carries the value as it
    is (a text verbatim).  Otherwise, and for the empty object too, it fails
    with exit code 9 and a message in which every key/value pair of the
    response is listed.  The cases are exclusive and leave no object out. *)
Theorem main_response_three_way (d : dict pyval) :
  main_response (PDict d)
  = match dict_get "port" d, dict_get "error" d with
    | Some port, _ =>
        (["Forwarded port: " ++ py_str port; EmptyString], Ret tt)
    | None, Some error =>
        (["API returned an error: " ++ py_str error; EmptyString;
          "Exiting with exit status: 8, main (): API returned an error response"],
         Exit 8)
    | None, None =>
        ([("API returned unknown key/value pair(s):" ++ nl ++ nl)
          ++ join nl (map (fun kv => fst kv ++ ": " ++ py_str (snd kv)) d);
          EmptyString;
          "Exiting with exit status: 9, main (): API returned an unknown response"],
         Exit 9)
    end
  /\ (forall text, py_str (PStr text) = text)
  /\ (forall key value,
        In (key, value) d ->
        occurs_in (key ++ ": " ++ py_str value)
          (("API returned unknown key/value pair(s):" ++ nl ++ nl)
           ++ join nl (map (fun kv => fst kv ++ ": " ++ py_str (snd kv)) d))).
Proof.
  split; [| split].
  - unfold main_response, py_contains, py_getitem, py_items, dict_getitem, dict_contains.
    destruct (dict_get "port" d) as [port |]; [reflexivity |].
    destruct (dict_get "error" d) as [error |].
    + cbn [call bind ret Monad_Proc proc_bind].
      rewrite (handleError_described _ 8 None "main (): API returned an error response");
        [reflexivity | lia | reflexivity].
    + cbn [call bind ret Monad_Proc proc_bind].
      rewrite (handleError_described _ 9 None "main (): API returned an unknown response");
        [| lia | reflexivity].
      rewrite unknown_response_message. reflexivity.
  - reflexivity.
  - intros key value Hin. apply occurs_in_prepend, occurs_in_join.
    apply in_map_iff. exists (key, value). split; [reflexivity | exact Hin].
Qed.

End ResponseClassifier.

Section ResponseClassifierExamples.

Import Examples.

Lemma main_response_three_way_witness :
  main_response (PDict [("port", PInt 12345)]) = (["Forwarded port: 12345"; EmptyString], Ret tt)
  /\ main_response (PDict [("error", PStr "bad token")])
     = (["API returned an error: bad token"; EmptyString;
         "Exiting with exit status: 8, main (): API returned an error response"], Exit 8)
  /\ main_response (PDict [("foo", PStr "bar")])
     = (["API returned unknown key/value pair(s):" ++ nl ++ nl ++ "foo: bar"; EmptyString;
         "Exiting with exit status: 9, main (): API returned an unknown response"], Exit 9)
  /\ main_response (PDict [])
     = (["API returned unknown key/value pair(s):" ++ nl ++ nl; EmptyString;
         "Exiting with exit status: 9, main (): API returned an unknown response"], Exit 9).
Proof.
  split; [| split; [| split]].
  - exact (proj1 (main_response_three_way [("port", PInt 12345)])).
  - exact (proj1 (main_response_three_way [("error", PStr "bad token")])).
  - exact (proj1 (main_response_three_way [("foo", PStr "bar")])).
  - exact (proj1 (main_response_three_way [])).
Defined.

End ResponseClassifierExamples.

(** ** Running a process *)

Ltac run :=
  cbn [call raise bind ret Monad_Proc proc_bind try_except find_clause existsb bound
       print_ sys_exit debugPrint nonDebugPrint negb app orb andb
       py_setitem py_getitem py_contains py_items dict_getitem].

Ltac run_handleError code description :=
  rewrite (handleError_described _ code _ description) by (first [lia | reflexivity]); run.

(** ** The credential loader *)

Section CredentialLoader.

Variable lib : Library.
Variable w : World.
Variable DEBUG : bool.
Variables credentialsPath interface : string.

Lemma ValueError_not_OSError (e : exc) :
  isinstance e ValueError = true -> isinstance e OSError = false.
Proof.
  unfold isinstance. destruct (exc_cls e); cbv; intros H; congruence.
Qed.

Lemma truthy_keys_local_ip (x : pyval) (d : dict pyval) :
  truthy (keys_and (dict_keys (dict_set "local_ip" x d)) ["user"; "pass"; "client_id"])
  = truthy (keys_and (dict_keys d) required_keys).
Proof.
  assert (keys_and (dict_keys (dict_set "local_ip" x d)) required_keys = []
          <-> keys_and (dict_keys d) required_keys = []) as Hiff.
  { rewrite !keys_and_nil. split; intros H k Hin; specialize (H k Hin).
    - rewrite dict_get_set_other in H; [exact H |].
      intros <-. simpl in Hin. destruct Hin as [E | [E | [E | []]]]; discriminate E.
    - rewrite dict_get_set_other; [exact H |].
      intros <-. simpl in Hin. destruct Hin as [E | [E | [E | []]]]; discriminate E. }
  change ["user"; "pass"; "client_id"] with required_keys.
  destruct (keys_and (dict_keys (dict_set "local_ip" x d)) required_keys) eqn:E1;
    destruct (keys_and (dict_keys d) required_keys) eqn:E2; simpl; try reflexivity.
  - destruct Hiff as [Hiff _]. specialize (Hiff eq_refl). discriminate Hiff.
  - destruct Hiff as [_ Hiff]. specialize (Hiff eq_refl). discriminate Hiff.
Qed.

(** The [try] block raises an [OSError]: exit code 2. *)
Lemma getCredentials_OSError (opened : bool) (e : exc) :
  credentials_read lib w credentialsPath = (opened, inl e) ->
  isinstance e OSError = true ->
  getCredentials lib w DEBUG credentialsPath interface
  = (app (debug_lines (DEBUG && opened)
            ["Using credentials file: '" ++ credentialsPath ++ "'"; EmptyString])
         (error_report
            ("Credentials file: '" ++ credentialsPath ++ "' does not exist or cannot be opened")
            2 (Some (exc_str e)) "getCredentials (): Credentials file cannot be opened"),
     Exit 2).
Proof.
  unfold credentials_read, getCredentials. intros Hread Hcls.
  destruct (fs_open w credentialsPath) as [e' | f].
  - injection Hread as <- <-. run. unfold IOError. rewrite Hcls. run.
    run_handleError 2 "getCredentials (): Credentials file cannot be opened".
    now rewrite andb_false_r.
  - destruct (file_read f) as [e' | text] eqn:Hf; injection Hread as <- Hjson.
    + subst e'.
      destruct DEBUG; run; rewrite Hf; run; unfold IOError; rewrite Hcls; run;
        run_handleError 2 "getCredentials (): Credentials file cannot be opened";
        reflexivity.
    + destruct DEBUG; run; rewrite Hf; run; rewrite Hjson; run; unfold IOError; rewrite Hcls; run;
        run_handleError 2 "getCredentials (): Credentials file cannot be opened";
        reflexivity.
Qed.

(** The [try] block raises a [ValueError]: exit code 3. *)
Lemma getCredentials_ValueError (opened : bool) (e : exc) :
  credentials_read lib w credentialsPath = (opened, inl e) ->
  isinstance e ValueError = true ->
  getCredentials lib w DEBUG credentialsPath interface
  = (app (debug_lines (DEBUG && opened)
            ["Using credentials file: '" ++ credentialsPath ++ "'"; EmptyString])
         (error_report
            ("JSON file: '" ++ credentialsPath
             ++ "' is malformed, refer to the README or the exception message below for the correct format")
            3 (Some (exc_str e)) "getCredentials (): JSON credentials are malformed"),
     Exit 3).
Proof.
  unfold credentials_read, getCredentials. intros Hread Hcls.
  pose proof (ValueError_not_OSError e Hcls) as Hos.
  destruct (fs_open w credentialsPath) as [e' | f].
  - injection Hread as <- <-. run. unfold IOError. rewrite Hos, Hcls. run.
    run_handleError 3 "getCredentials (): JSON credentials are malformed".
    now rewrite andb_false_r.
  - destruct (file_read f) as [e' | text] eqn:Hf; injection Hread as <- Hjson.
    + subst e'.
      destruct DEBUG; run; rewrite Hf; run; unfold IOError; rewrite Hos, Hcls; run;
        run_handleError 3 "getCredentials (): JSON credentials are malformed";
        reflexivity.
    + destruct DEBUG; run; rewrite Hf; run; rewrite Hjson; run; unfold IOError; rewrite Hos, Hcls; run;
        run_handleError 3 "getCredentials (): JSON credentials are malformed";
        reflexivity.
Qed.

End CredentialLoader.

Section CredentialLoaderParsed.

Variable lib : Library.
Variable w : World.
Variable DEBUG : bool.
Variables credentialsPath interface : string.

(** The document parsed to the object [d], and the local address is [ip]. *)
Variable d : dict pyval.
Variable out_ip : list string.
Variable ip : string.
Hypothesis Hread : credentials_read lib w credentialsPath = (true, inr (PDict d)).
Hypothesis Hip : getIPAddress w DEBUG interface = (out_ip, Ret ip).

Lemma credentials_read_parsed :
  exists f text,
    fs_open w credentialsPath = inr f /\ file_read f = inr text
    /\ json_loads lib text = inr (PDict d).
Proof.
  unfold credentials_read in Hread.
  destruct (fs_open w credentialsPath) as [e | f]; [discriminate Hread |].
  destruct (file_read f) as [e | text] eqn:Hf; [discriminate Hread |].
  injection Hread as Hjson. now exists f, text.
Qed.

(** Up to the check of the keys, with [DEBUG] decided. *)
Ltac load_then_check :=
  destruct credentials_read_parsed as (f & text & Hopen & Hf & Hjson);
  unfold getCredentials, dict_getitem; rewrite Hopen;
  run; rewrite Hf; run; rewrite Hjson; run; rewrite Hip; run;
  rewrite truthy_keys_local_ip.

(** None of the three keys: exit code 4. *)
Lemma getCredentials_no_required_key :
  keys_and (dict_keys d) required_keys = [] ->
  getCredentials lib w DEBUG credentialsPath interface
  = (app (debug_lines DEBUG
            ["Using credentials file: '" ++ credentialsPath ++ "'"; EmptyString])
         (app out_ip
            (error_report
               ("Credentials file: " ++ credentialsPath
                ++ " is missing required keys. See the required format in the README")
               4 None "getCredentials (): Credentials file is missing required keys")),
     Exit 4).
Proof.
  intros Hkeys. destruct DEBUG; load_then_check; rewrite Hkeys; cbn [truthy negb];
    run_handleError 4 "getCredentials (): Credentials file is missing required keys";
    reflexivity.
Qed.

(** All three keys: the credentials, with the local address added. *)
Lemma getCredentials_complete (user pass client_id : pyval) :
  dict_get "user" d = Some user ->
  dict_get "pass" d = Some pass ->
  dict_get "client_id" d = Some client_id ->
  getCredentials lib w DEBUG credentialsPath interface
  = (app (debug_lines DEBUG
            ["Using credentials file: '" ++ credentialsPath ++ "'"; EmptyString])
         (app out_ip
            (debug_lines DEBUG
               ["Username: '" ++ py_str user ++ "'"; "Password: '" ++ py_str pass ++ "'";
                "Client ID: '" ++ py_str client_id ++ "'"; EmptyString])),
     Ret (PDict (dict_set "local_ip" (PStr ip) d))).
Proof.
  intros Huser Hpass Hclient.
  assert (truthy (keys_and (dict_keys d) required_keys) = true) as Hkeys.
  { destruct (truthy (keys_and (dict_keys d) required_keys)) eqn:E; [reflexivity |].
    apply truthy_false in E. rewrite keys_and_nil in E.
    specialize (E "user" (or_introl eq_refl)). congruence. }
  destruct DEBUG; load_then_check; rewrite Hkeys; run;
    rewrite !dict_get_set_other by discriminate; rewrite Huser; run;
    rewrite Hpass; run; rewrite Hclient; run;
    rewrite ?app_nil_r; reflexivity.
Qed.

(** At least one of the three keys and one of them missing: the [KeyError] of
    the first missing key, in the order of the three debugging prints. *)
Lemma getCredentials_partial :
  keys_and (dict_keys d) required_keys <> [] ->
  (exists k, In k required_keys /\ dict_get k d = None) ->
  exists out k,
    getCredentials lib w DEBUG credentialsPath interface = (out, Raised (key_error k))
    /\ In k required_keys /\ dict_get k d = None.
Proof.
  intros Hsome (k & Hk & Hnone).
  assert (truthy (keys_and (dict_keys d) required_keys) = true) as Hkeys.
  { destruct (keys_and (dict_keys d) required_keys); [contradiction | reflexivity]. }
  destruct (dict_get "user" d) as [user |] eqn:Huser.
  2: { destruct DEBUG; eexists; exists "user";
         (split; [| split; [now left | exact Huser]]);
       load_then_check; rewrite Hkeys; run;
         rewrite !dict_get_set_other by discriminate; rewrite Huser; run; reflexivity. }
  destruct (dict_get "pass" d) as [pass |] eqn:Hpass.
  2: { destruct DEBUG; eexists; exists "pass";
         (split; [| split; [right; now left | exact Hpass]]);
       load_then_check; rewrite Hkeys; run;
         rewrite !dict_get_set_other by discriminate; rewrite Huser; run;
         rewrite Hpass; run; reflexivity. }
  destruct (dict_get "client_id" d) as [client_id |] eqn:Hclient.
  2: { destruct DEBUG; eexists; exists "client_id";
         (split; [| split; [right; right; now left | exact Hclient]]);
       load_then_check; rewrite Hkeys; run;
         rewrite !dict_get_set_other by discriminate; rewrite Huser; run;
         rewrite Hpass; run; rewrite Hclient; run; reflexivity. }
  simpl in Hk. destruct Hk as [<- | [<- | [<- | []]]]; congruence.
Qed.

End CredentialLoaderParsed.

Section CredentialLoaderClaims.

Import Examples.

Lemma credentials_read_ok (lib : Library) (w : World) (credentialsPath : string)
  (f : file) (text : string) :
  fs_open w credentialsPath = inr f -> file_read f = inr text ->
  credentials_read lib w credentialsPath = (true, json_loads lib text).
Proof. intros Hopen Hf. unfold credentials_read. now rewrite Hopen, Hf. Qed.

(** C9.  [getCredentials] ends the process with exit code 2, the cause printed
    in the report, whenever the file cannot be opened or cannot be read (any
    [OSError], whatever its kind), and with exit code 3, the cause printed in
    the report, whenever the text read is not valid JSON.  As long as the
    parse has not succeeded there is no other way out: with [open], [read] and
    [json.loads] raising the errors they are documented to raise, the
    function exits with code 2, exits with code 3, or has parsed the file. *)
Theorem getCredentials_unreadable_or_malformed (lib : Library) (w : World) (DEBUG : bool)
  (credentialsPath interface : string) :
  (forall e,
      fs_open w credentialsPath = inl e -> isinstance e OSError = true ->
      getCredentials lib w DEBUG credentialsPath interface
      = ([ "Credentials file: '" ++ credentialsPath ++ "' does not exist or cannot be opened";
           EmptyString; exc_str e; EmptyString;
           "Exiting with exit status: 2, getCredentials (): Credentials file cannot be opened" ],
         Exit 2))
  /\ (forall f e,
        fs_open w credentialsPath = inr f -> file_read f = inl e ->
        isinstance e OSError = true ->
        getCredentials lib w DEBUG credentialsPath interface
        = (app (debug_lines DEBUG
                  ["Using credentials file: '" ++ credentialsPath ++ "'"; EmptyString])
             [ "Credentials file: '" ++ credentialsPath ++ "' does not exist or cannot be opened";
               EmptyString; exc_str e; EmptyString;
               "Exiting with exit status: 2, getCredentials (): Credentials file cannot be opened" ],
           Exit 2))
  /\ (forall f text e,
        fs_open w credentialsPath = inr f -> file_read f = inr text ->
        json_loads lib text = inl e -> isinstance e ValueError = true ->
        getCredentials lib w DEBUG credentialsPath interface
        = (app (debug_lines DEBUG
                  ["Using credentials file: '" ++ credentialsPath ++ "'"; EmptyString])
             [ "JSON file: '" ++ credentialsPath
               ++ "' is malformed, refer to the README or the exception message below for the correct format";
               EmptyString; exc_str e; EmptyString;
               "Exiting with exit status: 3, getCredentials (): JSON credentials are malformed" ],
           Exit 3))
  /\ ((forall opened e,
          credentials_read lib w credentialsPath = (opened, inl e) ->
          isinstance e OSError = true \/ isinstance e ValueError = true) ->
      (exists out, getCredentials lib w DEBUG credentialsPath interface = (out, Exit 2))
      \/ (exists out, getCredentials lib w DEBUG credentialsPath interface = (out, Exit 3))
      \/ (exists f text v,
             fs_open w credentialsPath = inr f /\ file_read f = inr text
             /\ json_loads lib text = inr v)).
Proof.
  split; [| split; [| split]].
  - intros e Hopen Hcls.
    rewrite (getCredentials_OSError lib w DEBUG credentialsPath interface false e);
      [rewrite andb_false_r; reflexivity | | exact Hcls].
    unfold credentials_read. now rewrite Hopen.
  - intros f e Hopen Hf Hcls.
    rewrite (getCredentials_OSError lib w DEBUG credentialsPath interface true e);
      [rewrite andb_true_r; reflexivity | | exact Hcls].
    unfold credentials_read. now rewrite Hopen, Hf.
  - intros f text e Hopen Hf Hjson Hcls.
    rewrite (getCredentials_ValueError lib w DEBUG credentialsPath interface true e);
      [rewrite andb_true_r; reflexivity | | exact Hcls].
    rewrite (credentials_read_ok lib w credentialsPath f text Hopen Hf). now rewrite Hjson.
  - intros Hraises.
    destruct (credentials_read lib w credentialsPath) as [opened [e | v]] eqn:Hread.
    + destruct (isinstance e OSError) eqn:Hos.
      * left. eexists. now apply getCredentials_OSError with (opened := opened) (e := e).
      * right. left. eexists.
        apply getCredentials_ValueError with (opened := opened) (e := e); [exact Hread |].
        destruct (Hraises opened e eq_refl) as [H | H]; [congruence | exact H].
    + right. right. unfold credentials_read in Hread.
      destruct (fs_open w credentialsPath) as [e | f] eqn:Hopen; [discriminate Hread |].
      destruct (file_read f) as [e | text] eqn:Hf; [discriminate Hread |].
      injection Hread as _ Hjson. now exists f, text, v.
Qed.

Lemma getCredentials_unreadable_or_malformed_witness :
  getCredentials library (world one_address (inl timed_out)) false "nope.json" "tun0"
  = ([ "Credentials file: 'nope.json' does not exist or cannot be opened"; EmptyString;
       "[Errno 2] No such file or directory: 'nope.json'"; EmptyString;
       "Exiting with exit status: 2, getCredentials (): Credentials file cannot be opened" ],
     Exit 2)
  /\ getCredentials library
       (mkWorld one_address
          (fun _ => inr (mkFile (inl (mkExc OSError "[Errno 5] Input/output error"))))
          (answers (inl timed_out)))
       true "full.json" "tun0"
     = ([ "Using credentials file: 'full.json'"; EmptyString;
          "Credentials file: 'full.json' does not exist or cannot be opened"; EmptyString;
          "[Errno 5] Input/output error"; EmptyString;
          "Exiting with exit status: 2, getCredentials (): Credentials file cannot be opened" ],
        Exit 2)
  /\ getCredentials library (world one_address (inl timed_out)) false "broken.json" "tun0"
     = ([ "JSON file: 'broken.json' is malformed, refer to the README or the exception message below for the correct format";
          EmptyString; "Expecting value: line 1 column 1 (char 0)"; EmptyString;
          "Exiting with exit status: 3, getCredentials (): JSON credentials are malformed" ],
        Exit 3)
  /\ ((exists out,
          getCredentials library (world one_address (inl timed_out)) false "full.json" "tun0"
          = (out, Exit 2))
      \/ (exists out,
             getCredentials library (world one_address (inl timed_out)) false "full.json" "tun0"
             = (out, Exit 3))
      \/ exists f text v,
           fs_open (world one_address (inl timed_out)) "full.json" = inr f
           /\ file_read f = inr text /\ json_loads library text = inr v).
Proof.
  split; [| split; [| split]].
  - exact (proj1 (getCredentials_unreadable_or_malformed
                    library (world one_address (inl timed_out)) false "nope.json" "tun0")
             (mkExc FileNotFoundError "[Errno 2] No such file or directory: 'nope.json'")
             eq_refl eq_refl).
  - exact (proj1 (proj2 (getCredentials_unreadable_or_malformed
                    library
                    (mkWorld one_address
                       (fun _ => inr (mkFile (inl (mkExc OSError "[Errno 5] Input/output error"))))
                       (answers (inl timed_out)))
                    true "full.json" "tun0"))
             (mkFile (inl (mkExc OSError "[Errno 5] Input/output error")))
             (mkExc OSError "[Errno 5] Input/output error")
             eq_refl eq_refl eq_refl).
  - exact (proj1 (proj2 (proj2 (getCredentials_unreadable_or_malformed
                    library (world one_address (inl timed_out)) false "broken.json" "tun0")))
             (mkFile (inr "{user: ")) "{user: "
             (mkExc JSONDecodeError "Expecting value: line 1 column 1 (char 0)")
             eq_refl eq_refl eq_refl eq_refl).
  - apply (proj2 (proj2 (proj2 (getCredentials_unreadable_or_malformed
                    library (world one_address (inl timed_out)) false "full.json" "tun0")))).
    intros opened e Hread. discriminate Hread.
Defined.

End CredentialLoaderClaims.

Section CredentialKeysClaims.

Import Examples.

(** C2, as the code has it.  Take a credentials file that parses as a JSON
    object and an interface that resolves to exactly one IPv4 address (the
    address is looked up before the keys are checked, and that lookup has its
    own exit).  Then [getCredentials] fails with exit code 4 if and only if
    none of the keys [user], [pass], [client_id] is in the file: one key is
    enough to pass the check.  And when all three keys are present it returns
    the mapping of the file, [user], [pass] and [client_id] unchanged, with
    [local_ip] set to the resolved address. *)
Theorem getCredentials_required_keys (lib : Library) (w : World) (DEBUG : bool)
  (credentialsPath interface : string) (f : file) (text : string) (d : dict pyval)
  (t : families) (a : address) (ip : string) :
  fs_open w credentialsPath = inr f ->
  file_read f = inr text ->
  json_loads lib text = inr (PDict d) ->
  dict_get interface (os_interfaces w) = Some t ->
  families_get AF_INET t = Some [a] ->
  dict_get "addr" a = Some ip ->
  ((exists out, getCredentials lib w DEBUG credentialsPath interface = (out, Exit 4))
   <-> keys_and (dict_keys d) required_keys = [])
  /\ (forall user pass client_id,
        dict_get "user" d = Some user ->
        dict_get "pass" d = Some pass ->
        dict_get "client_id" d = Some client_id ->
        exists out credentials,
          getCredentials lib w DEBUG credentialsPath interface = (out, Ret (PDict credentials))
          /\ credentials = dict_set "local_ip" (PStr ip) d
          /\ dict_get "user" credentials = Some user
          /\ dict_get "pass" credentials = Some pass
          /\ dict_get "client_id" credentials = Some client_id
          /\ dict_get "local_ip" credentials = Some (PStr ip)).
Proof.
  intros Hopen Hf Hjson Ht Hl Haddr.
  pose proof (credentials_read_ok lib w credentialsPath f text Hopen Hf) as Hread.
  rewrite Hjson in Hread.
  pose proof (getIPAddress_single w DEBUG interface t a ip Ht Hl Haddr) as Hip.
  split; [split |].
  - intros [out Hrun].
    destruct (keys_and (dict_keys d) required_keys) as [|k0 ks] eqn:Hkeys; [reflexivity |].
    exfalso.
    destruct (dict_get "user" d) as [user |] eqn:Huser;
      [destruct (dict_get "pass" d) as [pass |] eqn:Hpass;
       [destruct (dict_get "client_id" d) as [client_id |] eqn:Hclient |] |].
    + rewrite (getCredentials_complete lib w DEBUG credentialsPath interface d _ ip Hread Hip
                 user pass client_id Huser Hpass Hclient) in Hrun.
      discriminate Hrun.
    + destruct (getCredentials_partial lib w DEBUG credentialsPath interface d _ ip Hread Hip)
        as (out' & k & Hraised & _).
      * rewrite Hkeys. discriminate.
      * exists "client_id". split; [right; right; now left | exact Hclient].
      * rewrite Hraised in Hrun. discriminate Hrun.
    + destruct (getCredentials_partial lib w DEBUG credentialsPath interface d _ ip Hread Hip)
        as (out' & k & Hraised & _).
      * rewrite Hkeys. discriminate.
      * exists "pass". split; [right; now left | exact Hpass].
      * rewrite Hraised in Hrun. discriminate Hrun.
    + destruct (getCredentials_partial lib w DEBUG credentialsPath interface d _ ip Hread Hip)
        as (out' & k & Hraised & _).
      * rewrite Hkeys. discriminate.
      * exists "user". split; [now left | exact Huser].
      * rewrite Hraised in Hrun. discriminate Hrun.
  - intros Hkeys. eexists.
    exact (getCredentials_no_required_key lib w DEBUG credentialsPath interface d _ ip
             Hread Hip Hkeys).
  - intros user pass client_id Huser Hpass Hclient.
    eexists. exists (dict_set "local_ip" (PStr ip) d). split; [| split; [reflexivity |]].
    + exact (getCredentials_complete lib w DEBUG credentialsPath interface d _ ip Hread Hip
               user pass client_id Huser Hpass Hclient).
    + rewrite !dict_get_set_other by discriminate. rewrite dict_get_set_same. tauto.
Qed.

Lemma getCredentials_required_keys_witness :
  (exists out,
      getCredentials library (world one_address (inl timed_out)) false "empty.json" "tun0"
      = (out, Exit 4))
  /\ exists out,
      getCredentials library (world one_address (inl timed_out)) false "full.json" "tun0"
      = (out, Ret (PDict (full_credentials ++ [("local_ip", PStr "10.8.0.6")]))).
Proof.
  split.
  - apply (proj1 (getCredentials_required_keys
                    library (world one_address (inl timed_out)) false "empty.json" "tun0"
                    (mkFile (inr empty_json)) empty_json [] [(AF_INET, [tun0_address])]
                    tun0_address "10.8.0.6" eq_refl eq_refl eq_refl eq_refl eq_refl eq_refl)).
    reflexivity.
  - destruct (proj2 (getCredentials_required_keys
                       library (world one_address (inl timed_out)) false "full.json" "tun0"
                       (mkFile (inr full_json)) full_json full_credentials
                       [(AF_INET, [tun0_address])] tun0_address "10.8.0.6"
                       eq_refl eq_refl eq_refl eq_refl eq_refl eq_refl)
                (PStr "p1234567") (PStr "hunter2") (PStr "0a1b2c") eq_refl eq_refl eq_refl)
      as (out & credentials & Hrun & -> & _).
    exists out. exact Hrun.
Defined.

(** C2 as stated fails where the interface has two IPv4 addresses: a file
    with none of the three keys then ends in exit code 5, not 4. *)
Lemma getCredentials_required_keys_counterexample :
  json_loads library empty_json = inr (PDict [])
  /\ keys_and (dict_keys (@nil (string * pyval))) required_keys = []
  /\ snd (getCredentials library (world two_addresses (inl timed_out)) false "empty.json" "tun0")
     = Exit 5
  /\ ~ (exists out,
           getCredentials library (world two_addresses (inl timed_out)) false
             "empty.json" "tun0"
           = (out, Exit 4)).
Proof.
  split; [reflexivity |]. split; [reflexivity |]. split; [reflexivity |].
  intros [out Hrun]. apply (f_equal snd) in Hrun. vm_compute in Hrun. discriminate Hrun.
Qed.

(** C3, as the code has it.  Take a credentials file that parses as a JSON
    object and an interface that resolves to exactly one IPv4 address.  If the
    file has at least one of the keys [user], [pass], [client_id] and lacks
    another, [getCredentials] neither returns nor exits: it raises the
    [KeyError] of a missing key, which nothing catches, and it does so with
    debugging off as well as on, since the arguments of the debugging prints
    are evaluated either way. *)
Theorem getCredentials_partial_keys (lib : Library) (w : World) (DEBUG : bool)
  (credentialsPath interface : string) (f : file) (text : string) (d : dict pyval)
  (t : families) (a : address) (ip : string) :
  fs_open w credentialsPath = inr f ->
  file_read f = inr text ->
  json_loads lib text = inr (PDict d) ->
  dict_get interface (os_interfaces w) = Some t ->
  families_get AF_INET t = Some [a] ->
  dict_get "addr" a = Some ip ->
  (exists k, In k required_keys /\ dict_contains k d = true) ->
  (exists k, In k required_keys /\ dict_contains k d = false) ->
  exists out k,
    getCredentials lib w DEBUG credentialsPath interface = (out, Raised (key_error k))
    /\ exc_cls (key_error k) = KeyError
    /\ In k required_keys /\ dict_contains k d = false.
Proof.
  intros Hopen Hf Hjson Ht Hl Haddr (k1 & Hk1 & Hhas) (k2 & Hk2 & Hlacks).
  pose proof (credentials_read_ok lib w credentialsPath f text Hopen Hf) as Hread.
  rewrite Hjson in Hread.
  pose proof (getIPAddress_single w DEBUG interface t a ip Ht Hl Haddr) as Hip.
  unfold dict_contains in Hhas, Hlacks.
  destruct (getCredentials_partial lib w DEBUG credentialsPath interface d _ ip Hread Hip)
    as (out & k & Hraised & Hk & Hnone).
  - intros Hnil. rewrite keys_and_nil in Hnil. rewrite (Hnil k1 Hk1) in Hhas. discriminate Hhas.
  - exists k2. split; [exact Hk2 |]. destruct (dict_get k2 d); [discriminate Hlacks | reflexivity].
  - exists out, k. split; [exact Hraised |]. split; [reflexivity |]. split; [exact Hk |].
    unfold dict_contains. now rewrite Hnone.
Qed.

Lemma getCredentials_partial_keys_witness :
  exists out k,
    getCredentials library (world one_address (inl timed_out)) false "user.json" "tun0"
    = (out, Raised (key_error k))
    /\ In k ["user"; "pass"; "client_id"].
Proof.
  destruct (getCredentials_partial_keys
              library (world one_address (inl timed_out)) false "user.json" "tun0"
              (mkFile (inr user_only_json)) user_only_json [("user", PStr "p1234567")]
              [(AF_INET, [tun0_address])] tun0_address "10.8.0.6"
              eq_refl eq_refl eq_refl eq_refl eq_refl eq_refl
              (ex_intro _ "user" (conj (or_introl eq_refl) eq_refl))
              (ex_intro _ "pass" (conj (or_intror (or_introl eq_refl)) eq_refl)))
    as (out & k & Hrun & _ & Hk & _).
  exists out, k. split; [exact Hrun | exact Hk].
Defined.

(** C3 as stated fails where the interface has two IPv4 addresses: a file
    with [user] alone then leaves through the error reporter, exit code 5. *)
Lemma getCredentials_partial_keys_counterexample :
  json_loads library user_only_json = inr (PDict [("user", PStr "p1234567")])
  /\ snd (getCredentials library (world two_addresses (inl timed_out)) false "user.json" "tun0")
     = Exit 5
  /\ ~ (exists out e,
           getCredentials library (world two_addresses (inl timed_out)) false
             "user.json" "tun0"
           = (out, Raised e)).
Proof.
  split; [reflexivity |]. split; [reflexivity |].
  intros (out & e & Hrun). apply (f_equal snd) in Hrun. vm_compute in Hrun. discriminate Hrun.
Qed.

End CredentialKeysClaims.

(** ** The API client *)

Section ApiClient.

Variable lib : Library.
Variable w : World.
Variable DEBUG : bool.
Variable credentials : pyval.
Variable endpointURL : string.
Variable timeout : Z.

(** The credentials encode to the request body [parameters]. *)
Variable parameters : string.
Hypothesis Hencode : urlencode lib credentials = inr parameters.


(** An exception of another class is not caught. *)
Lemma forwardPort_uncaught (e : exc) :
  transport_raises w endpointURL parameters timeout e ->
  isinstance e URLError = false ->
  forwardPort lib w DEBUG credentials endpointURL timeout
  = (debug_lines DEBUG ["Posting to endpoint: '" ++ endpointURL ++ "'"; EmptyString],
     Raised e).
Proof.
  intros Hraises Hcls.
  assert (isinstance e HTTPError = false) as Hhttp.
  { revert Hcls. unfold isinstance. destruct (exc_cls e); cbv; congruence. }
  destruct Hraises as [Hopen | (connection & Hopen & Hbody)];
    unfold forwardPort; rewrite Hencode.
  - destruct DEBUG; run; rewrite Hopen; run; rewrite Hcls, Hhttp; run; reflexivity.
  - destruct DEBUG; run; rewrite Hopen; run; rewrite Hbody; run; rewrite Hcls, Hhttp; run;
      reflexivity.
Qed.

(** A response arrived: its body is decoded with the declared charset or with
    UTF-8, unquoted once, and parsed. *)
Lemma forwardPort_received (connection : connection) (body : string) :
  net_urlopen w endpointURL parameters timeout = inr connection ->
  conn_read connection = inr body ->
  forwardPort lib w DEBUG credentials endpointURL timeout
  = let responseEncoding :=
      match conn_content_charset connection with
      | Some charset => charset
      | None => "utf-8"
      end in
    let posting := ["Posting to endpoint: '" ++ endpointURL ++ "'"; EmptyString] in
    match bytes_decode lib body responseEncoding with
    | inl e => (debug_lines DEBUG posting, Raised e)
    | inr responseString =>
        let trace :=
          debug_lines DEBUG
            (app posting
               ["Decoded API response bytes as: '" ++ responseEncoding ++ "'"; EmptyString;
                "API response JSON: '" ++ unquote lib responseString ++ "'"; EmptyString]) in
        match json_loads lib (unquote lib responseString) with
        | inr response => (trace, Ret response)
        | inl e =>
            if isinstance e ValueError
            then
              (app trace
                 (error_report
                    ("The API response is malformed, refer to the response text and the exception message below"
                     ++ nl ++ nl ++ "Response text: " ++ unquote lib responseString)
                    7 (Some (exc_str e)) "forwardPort (): API JSON response is malformed"),
               Exit 7)
            else (trace, Raised e)
        end
    end.
Proof.
  intros Hopen Hbody. unfold forwardPort. rewrite Hencode.
  destruct DEBUG; run; rewrite Hopen; run; rewrite Hbody; run;
    fold DEFAULT_ENCODING;
    (destruct (bytes_decode lib body _) as [e | responseString]; run; [reflexivity |]);
    (destruct (json_loads lib (unquote lib responseString)) as [e | response]; run;
     [| reflexivity]);
    (destruct (isinstance e ValueError); run; [| reflexivity]);
    run_handleError 7 "forwardPort (): API JSON response is malformed"; reflexivity.
Qed.

End ApiClient.

Section ApiClientClaims.

Import Examples.



(** C5.  When a response has been received, [forwardPort] decodes its body
    with the charset that the content type declares, and with UTF-8 when it
    declares none; it unquotes the decoded text once and hands the result to
    the JSON parser.  If the parser accepts it, the parsed value is returned;
    if the parser rejects it, the process ends with exit code 7 after a report
    that shows the unquoted text and the parser's error. *)
Theorem forwardPort_decodes_unquotes_parses (lib : Library) (w : World) (DEBUG : bool)
  (credentials : pyval) (endpointURL : string) (timeout : Z) (parameters : string)
  (connection : connection) (body responseString : string) :
  urlencode lib credentials = inr parameters ->
  net_urlopen w endpointURL parameters timeout = inr connection ->
  conn_read connection = inr body ->
  bytes_decode lib body
    match conn_content_charset connection with
    | Some charset => charset
    | None => "utf-8"
    end
  = inr responseString ->
  (forall response,
      json_loads lib (unquote lib responseString) = inr response ->
      exists out,
        forwardPort lib w DEBUG credentials endpointURL timeout = (out, Ret response))
  /\ (forall e,
        json_loads lib (unquote lib responseString) = inl e ->
        isinstance e ValueError = true ->
        exists trace message,
          forwardPort lib w DEBUG credentials endpointURL timeout
          = (app trace
               [ message; EmptyString; exc_str e; EmptyString;
                 "Exiting with exit status: 7, forwardPort (): API JSON response is malformed" ],
             Exit 7)
          /\ occurs_in (unquote lib responseString) message).
Proof.
  intros Hencode Hopen Hbody Hdecode.
  pose proof (forwardPort_received lib w DEBUG credentials endpointURL timeout parameters
                Hencode connection body Hopen Hbody) as Hrun.
  cbv zeta in Hrun. rewrite Hdecode in Hrun. split.
  - intros response Hjson. rewrite Hjson in Hrun. eexists. exact Hrun.
  - intros e Hjson Hcls. rewrite Hjson, Hcls in Hrun.
    eexists. eexists. split; [exact Hrun |].
    apply occurs_in_prepend, occurs_in_prepend, occurs_in_prepend, occurs_in_prepend,
      occurs_in_refl.
Qed.

Lemma forwardPort_decodes_unquotes_parses_witness :
  (exists out,
      forwardPort library
        (world one_address (replies "%7B%22port%22%3A%2012345%7D" None)) false
        (PDict full_credentials) "https://example.invalid/port" 10
      = (out, Ret (PDict [("port", PInt 12345)])))
  /\ exists trace message,
       forwardPort library (world one_address (replies "%257B%257D" (Some "utf-8"))) false
         (PDict full_credentials) "https://example.invalid/port" 10
       = (app trace
            [ message; EmptyString; "Expecting value: line 1 column 1 (char 0)"; EmptyString;
              "Exiting with exit status: 7, forwardPort (): API JSON response is malformed" ],
          Exit 7)
       /\ occurs_in "%7B%7D" message.
Proof.
  split.
  - exact (proj1 (forwardPort_decodes_unquotes_parses
                    library (world one_address (replies "%7B%22port%22%3A%2012345%7D" None))
                    false (PDict full_credentials) "https://example.invalid/port" 10
                    "user=p1234567&pass=hunter2&client_id=0a1b2c"
                    (mkConnection (inr "%7B%22port%22%3A%2012345%7D") None)
                    "%7B%22port%22%3A%2012345%7D" "%7B%22port%22%3A%2012345%7D"
                    eq_refl eq_refl eq_refl eq_refl)
             (PDict [("port", PInt 12345)]) eq_refl).
  - exact (proj2 (forwardPort_decodes_unquotes_parses
                    library (world one_address (replies "%257B%257D" (Some "utf-8")))
                    false (PDict full_credentials) "https://example.invalid/port" 10
                    "user=p1234567&pass=hunter2&client_id=0a1b2c"
                    (mkConnection (inr "%257B%257D") (Some "utf-8"))
                    "%257B%257D" "%257B%257D"
                    eq_refl eq_refl eq_refl eq_refl)
             (mkExc JSONDecodeError "Expecting value: line 1 column 1 (char 0)")
             eq_refl eq_refl).
Defined.

End ApiClientClaims.

(** ** Whole runs *)

Section WholeRuns.

Import Examples.

(** The port is forwarded: [main] reaches its last line. *)
Example main_forwards_port :
  main library (world one_address (replies port_json None)) (mkArgs false "full.json")
  = (app banner
       [ "Response recieved"; EmptyString; "Forwarded port: 12345"; EmptyString;
         "Make sure to allow this port in your firewall and configure your applications to use it.";
         "Have a nice day :)" ],
     Ret tt).
Proof. reflexivity. Qed.

(** No IPv4 address on the tunnel: exit code 1, before any file is read. *)
Example main_not_connected :
  snd (main library (world no_address (replies port_json None)) (mkArgs false "nope.json"))
  = Exit 1.
Proof. reflexivity. Qed.

(** The API answers with an error. *)
Example main_api_error :
  main library (world one_address (replies error_json None)) (mkArgs false "full.json")
  = (app banner
       [ "Response recieved"; EmptyString; "API returned an error: bad token"; EmptyString;
         "Exiting with exit status: 8, main (): API returned an error response" ],
     Exit 8).
Proof. reflexivity. Qed.

(** A credentials file with [user] alone: the [KeyError] of [pass]. *)
Example main_partial_credentials :
  main library (world one_address (replies port_json None)) (mkArgs false "user.json")
  = (banner, Raised (mkExc KeyError "'pass'")).
Proof. reflexivity. Qed.

(** A body quoted twice is unquoted once, and is then no JSON. *)
Example main_quoted_twice :
  snd (main library (world one_address (replies "%257B%257D" None)) (mkArgs false "full.json"))
  = Exit 7.
Proof. reflexivity. Qed.

(** A code outside the table of descriptions has no report line: the lookup
    of its description raises before the exit. *)
Example handleError_outside_table :
  handleError "message" 10 None
  = (["message"; EmptyString], Raised (mkExc IndexError "list index out of range")).
Proof. reflexivity. Qed.

(** An error of the exchange that is no [URLError] is not caught. *)
Example forwardPort_other_error :
  forwardPort library (world one_address (inl (mkExc TimeoutError "timed out"))) false
    (PDict full_credentials) "https://example.invalid/port" 10
  = ([], Raised (mkExc TimeoutError "timed out")).
Proof. reflexivity. Qed.

End WholeRuns.

(** ** The exit codes of the script *)

Section ExitCodes.

Variable codes : list Z.

Lemma exits_in_ret {A : Type} (a : A) : exits_in codes (ret a).
Proof. intros out code H. discriminate H. Qed.

Lemma exits_in_print (line : string) : exits_in codes (print_ line).
Proof. intros out code H. discriminate H. Qed.

Lemma exits_in_call {A : Type} (r : exc + A) : exits_in codes (call r).
Proof. intros out code H. destruct r; discriminate H. Qed.

Lemma exits_in_bound {A : Type} (name : string) (x : option A) : exits_in codes (bound name x).
Proof. intros out code H. destruct x; discriminate H. Qed.

Lemma exits_in_bind {A B : Type} (m : Proc A) (k : A -> Proc B) :
  exits_in codes m -> (forall a, exits_in codes (k a)) -> exits_in codes (bind m k).
Proof.
  intros Hm Hk out code. cbn [bind Monad_Proc]. unfold proc_bind.
  destruct m as [out1 [a | c | e]].
  - destruct (k a) as [out2 r] eqn:Hka. intros [= _ ->]. now apply (Hk a out2 code).
  - intros [= _ ->]. now apply (Hm out1 code).
  - discriminate.
Qed.

Lemma exits_in_try {A : Type} (body : Proc A) (clauses : list (except_clause A)) :
  exits_in codes body ->
  Forall (fun clause => forall e, exits_in codes (snd clause e)) clauses ->
  exits_in codes (try_except body clauses).
Proof.
  intros Hbody Hclauses out code. unfold try_except.
  destruct body as [out1 [a | c | e]]; [discriminate | now apply Hbody |].
  destruct (find_clause e clauses) as [handler |] eqn:Hfind; [| discriminate].
  assert (forall e', exits_in codes (handler e')) as Hhandler.
  { clear - Hclauses Hfind. induction Hclauses as [|[classes h] rest Hh _ IH]; [discriminate |].
    simpl in Hfind. destruct (existsb (isinstance e) classes); [| now apply IH].
    injection Hfind as <-. exact Hh. }
  destruct (handler e) as [out2 r] eqn:Hrun. intros [= _ ->]. now apply (Hhandler e out2 code).
Qed.

Lemma exits_in_handleError (message : string) (exitCode : Z) (exception : option exc) :
  In exitCode codes -> exits_in codes (handleError message exitCode exception).
Proof.
  intros Hin out code. unfold handleError.
  destruct exception; destruct (list_getitem exitCodes exitCode); cbn; intros H;
    inversion H; subst; exact Hin.
Qed.

Lemma exits_in_debugPrint (DEBUG : bool) (message : option string) (printNewline : bool) :
  exits_in codes (debugPrint DEBUG message printNewline).
Proof.
  intros out code. destruct message, DEBUG, printNewline; discriminate.
Qed.

Lemma exits_in_nonDebugPrint (DEBUG : bool) (message : option string) (printNewline : bool) :
  exits_in codes (nonDebugPrint DEBUG message printNewline).
Proof.
  intros out code. destruct message, DEBUG, printNewline; discriminate.
Qed.

End ExitCodes.

Ltac exits :=
  repeat first
    [ apply exits_in_ret | apply exits_in_print | apply exits_in_call | apply exits_in_bound
    | apply exits_in_debugPrint | apply exits_in_nonDebugPrint
    | apply exits_in_handleError; simpl; tauto
    | apply exits_in_bind; [| intros ?]
    | apply exits_in_try;
      [| repeat (apply Forall_cons; [intros ?; cbn [snd] |]); try apply Forall_nil]
    | match goal with
      | |- exits_in _ (if ?b then _ else _) => destruct b
      | |- exits_in _ (match ?x with _ => _ end) => destruct x
      | |- exits_in _ (let '(_, _) := ?x in _) => destruct x
      end ].

(** On a command line that has parsed, when the script ends through
    [sys.exit] its code is one of 1 to 9: every call of the error reporter in
    the script passes a code of the table. *)
Lemma main_exit_codes (lib : Library) (w : World) (args : Args) :
  exits_in [1; 2; 3; 4; 5; 6; 7; 8; 9] (main lib w args).
Proof.
  unfold main, isConnected, getCredentials, getIPAddress, forwardPort, main_response.
  exits.
Qed.

(** X2.  Each component ends the process only with its own codes:
    [isConnected] never exits, [getIPAddress] exits with 5 only,
    [getCredentials] with 2, 3, 4 or (through [getIPAddress]) 5, [forwardPort]
    with 6 or 7, and the end of [main] with 8 or 9. *)
Theorem component_exit_codes (lib : Library) (w : World) (DEBUG : bool) :
  (forall interface, exits_in [] (isConnected w DEBUG interface))
  /\ (forall interface, exits_in [5] (getIPAddress w DEBUG interface))
  /\ (forall credentialsPath interface,
        exits_in [2; 3; 4; 5] (getCredentials lib w DEBUG credentialsPath interface))
  /\ (forall credentials endpointURL timeout,
        exits_in [6; 7] (forwardPort lib w DEBUG credentials endpointURL timeout))
  /\ (forall response, exits_in [8; 9] (main_response response)).
Proof.
  split; [| split; [| split; [| split]]]; intros.
  - unfold isConnected. exits.
  - unfold getIPAddress. exits.
  - unfold getCredentials, getIPAddress. exits.
  - unfold forwardPort. exits.
  - unfold main_response. exits.
Qed.

(** ** The exit line *)

Section ExitReported.

Lemma exit_reported_ret {A : Type} (a : A) : exit_reported (ret a).
Proof. intros out code H. discriminate H. Qed.

Lemma exit_reported_print (line : string) : exit_reported (print_ line).
Proof. intros out code H. discriminate H. Qed.

Lemma exit_reported_call {A : Type} (r : exc + A) : exit_reported (call r).
Proof. intros out code H. destruct r; discriminate H. Qed.

Lemma exit_reported_bound {A : Type} (name : string) (x : option A) :
  exit_reported (bound name x).
Proof. intros out code H. destruct x; discriminate H. Qed.

Lemma exit_reported_debugPrint (DEBUG : bool) (message : option string) (printNewline : bool) :
  exit_reported (debugPrint DEBUG message printNewline).
Proof. intros out code. destruct message, DEBUG, printNewline; discriminate. Qed.

Lemma exit_reported_nonDebugPrint (DEBUG : bool) (message : option string)
  (printNewline : bool) :
  exit_reported (nonDebugPrint DEBUG message printNewline).
Proof. intros out code. destruct message, DEBUG, printNewline; discriminate. Qed.

Lemma exit_reported_bind {A B : Type} (m : Proc A) (k : A -> Proc B) :
  exit_reported m -> (forall a, exit_reported (k a)) -> exit_reported (bind m k).
Proof.
  intros Hm Hk out code. cbn [bind Monad_Proc]. unfold proc_bind.
  destruct m as [out1 [a | c | e]].
  - destruct (k a) as [out2 r] eqn:Hka. intros [= <- ->].
    destruct (Hk a out2 code Hka) as (before & description & Hnth & Hpos & ->).
    exists (app out1 before), description. split; [exact Hnth |]. split; [exact Hpos |].
    now rewrite app_assoc.
  - intros H. injection H as Ho Hc. subst out code. exact (Hm _ _ eq_refl).
  - discriminate.
Qed.

Lemma exit_reported_try {A : Type} (body : Proc A) (clauses : list (except_clause A)) :
  exit_reported body ->
  Forall (fun clause => forall e, exit_reported (snd clause e)) clauses ->
  exit_reported (try_except body clauses).
Proof.
  intros Hbody Hclauses out code. unfold try_except.
  destruct body as [out1 [a | c | e]]; [discriminate | intros H; exact (Hbody out code H) |].
  destruct (find_clause e clauses) as [handler |] eqn:Hfind; [| discriminate].
  assert (forall e', exit_reported (handler e')) as Hhandler.
  { clear - Hclauses Hfind. induction Hclauses as [|[classes h] rest Hh _ IH]; [discriminate |].
    simpl in Hfind. destruct (existsb (isinstance e) classes); [| now apply IH].
    injection Hfind as <-. exact Hh. }
  destruct (handler e) as [out2 r] eqn:Hrun. intros [= <- ->].
  destruct (Hhandler e out2 code Hrun) as (before & description & Hnth & Hpos & ->).
  exists (app out1 before), description. split; [exact Hnth |]. split; [exact Hpos |].
  now rewrite app_assoc.
Qed.

Lemma exit_reported_handleError (message : string) (exitCode : Z) (exception : option exc) :
  0 <= exitCode <= 9 -> exit_reported (handleError message exitCode exception).
Proof.
  intros Hcode out code Hrun.
  destruct (exitCodes_described exitCode Hcode) as [description Hnth].
  rewrite (handleError_described message exitCode exception description) in Hrun;
    [| lia | exact Hnth].
  injection Hrun as <- <-.
  exists (app [message; EmptyString]
            match option_map exc_str exception with
            | Some text => [text; EmptyString]
            | None => []
            end), description.
  split; [exact Hnth |]. split; [lia |].
  unfold error_report. now rewrite app_assoc.
Qed.

End ExitReported.

Ltac reported :=
  repeat first
    [ apply exit_reported_ret | apply exit_reported_print | apply exit_reported_call
    | apply exit_reported_bound
    | apply exit_reported_debugPrint | apply exit_reported_nonDebugPrint
    | apply exit_reported_handleError; lia
    | apply exit_reported_bind; [| intros ?]
    | apply exit_reported_try;
      [| repeat (apply Forall_cons; [intros ?; cbn [snd] |]); try apply Forall_nil]
    | match goal with
      | |- exit_reported (if ?b then _ else _) => destruct b
      | |- exit_reported (match ?x with _ => _ end) => destruct x
      | |- exit_reported (let '(_, _) := ?x in _) => destruct x
      end ].

(** On a command line that has parsed, when the script ends through
    [sys.exit] the last text it printed is the exit line: the code, which is
    not negative, and the description the table has for that code. *)
Lemma main_exit_reported (lib : Library) (w : World) (args : Args) :
  forall out code,
    main lib w args = (out, Exit code) ->
    exists before description,
      nth_error exitCodes (Z.to_nat code) = Some description
      /\ 0 <= code
      /\ out = app before
                 ["Exiting with exit status: " ++ decimal code ++ ", " ++ description].
Proof.
  change (exit_reported (main lib w args)).
  unfold main, isConnected, getCredentials, getIPAddress, forwardPort, main_response.
  reported.
Qed.

(** ** What the debugging flag changes *)

Section DebugFlag.

Lemma outcome_bind {A B : Type} (m m' : Proc A) (k k' : A -> Proc B) :
  snd m = snd m' -> (forall a, snd (k a) = snd (k' a)) -> snd (bind m k) = snd (bind m' k').
Proof.
  intros Hm Hk. cbn [bind Monad_Proc]. unfold proc_bind.
  destruct m as [out [a | c | e]], m' as [out' [a' | c' | e']]; simpl in Hm;
    try discriminate Hm; try (injection Hm as <-); try reflexivity.
  specialize (Hk a). destruct (k a), (k' a). exact Hk.
Qed.

Lemma outcome_try {A : Type} (body body' : Proc A) (clauses clauses' : list (except_clause A)) :
  snd body = snd body' ->
  Forall2 (fun c c' => fst c = fst c' /\ forall e, snd (snd c e) = snd (snd c' e))
    clauses clauses' ->
  snd (try_except body clauses) = snd (try_except body' clauses').
Proof.
  intros Hbody Hclauses. unfold try_except.
  destruct body as [out [a | c | e]], body' as [out' [a' | c' | e']]; simpl in Hbody;
    try discriminate Hbody; try exact Hbody.
  injection Hbody as <-.
  induction Hclauses as [|[classes h] [classes' h'] rest rest' [Hcls Hh] _ IH]; [reflexivity |].
  simpl in Hcls, Hh. subst classes'. simpl.
  destruct (existsb (isinstance e) classes); [| exact IH].
  specialize (Hh e). destruct (h e), (h' e). exact Hh.
Qed.

Lemma outcome_debugPrint (D D' : bool) (message : option string) (printNewline : bool) :
  snd (debugPrint D message printNewline) = snd (debugPrint D' message printNewline).
Proof. destruct message, D, D', printNewline; reflexivity. Qed.

Lemma outcome_nonDebugPrint (D D' : bool) (message : option string) (printNewline : bool) :
  snd (nonDebugPrint D message printNewline) = snd (nonDebugPrint D' message printNewline).
Proof. destruct message, D, D', printNewline; reflexivity. Qed.

End DebugFlag.

Ltac outcomes :=
  repeat first
    [ apply outcome_debugPrint | apply outcome_nonDebugPrint
    | apply outcome_bind; [| intros ?]
    | apply outcome_try;
      [| repeat (apply Forall2_cons; [split; [reflexivity | intros ?; cbn [snd]] |]);
         try apply Forall2_nil]
    | match goal with
      | |- snd (if ?b then _ else _) = snd (if ?b then _ else _) => destruct b
      | |- snd (match ?x with _ => _ end) = snd (match ?x with _ => _ end) => destruct x
      end
    | reflexivity ].

(** X4.  The debugging flag changes what is printed and nothing else: run on
    the same credentials file in the same environment, [main] ends the same
    way (normal end, the same exit code, or the same exception) with the flag
    on and with the flag off. *)
Theorem main_outcome_ignores_debug (lib : Library) (w : World) (args args' : Args) :
  credentialsfile args = credentialsfile args' ->
  snd (main lib w args) = snd (main lib w args').
Proof.
  destruct args as [D path], args' as [D' path']. cbn [credentialsfile]. intros <-.
  unfold main, isConnected, getCredentials, getIPAddress, forwardPort, main_response.
  cbn [debug credentialsfile].
  outcomes.
Qed.

Section NormalEnd.

Lemma bind_Ret_inv {A B : Type} (m : Proc A) (k : A -> Proc B) (out : list string) (b : B) :
  bind m k = (out, Ret b) ->
  exists out1 a out2, m = (out1, Ret a) /\ k a = (out2, Ret b) /\ out = app out1 out2.
Proof.
  cbn [bind Monad_Proc]. unfold proc_bind.
  destruct m as [out1 [a | c | e]]; try discriminate.
  destruct (k a) as [out2 r] eqn:Hka. intros [= <- ->]. now exists out1, a, out2.
Qed.

(** The end of [main] returns only on an object with a [port]. *)
Lemma main_response_Ret (response : pyval) (out : list string) (a : unit) :
  main_response response = (out, Ret a) ->
  exists d port,
    response = PDict d /\ dict_get "port" d = Some port
    /\ out = ["Forwarded port: " ++ py_str port; EmptyString].
Proof.
  unfold main_response.
  destruct response as [| b | n | text | s | elements | d];
    cbn [py_contains py_getitem py_items call raise bind ret Monad_Proc proc_bind];
    try discriminate.
  - destruct (has_substring "port" s); cbn; [discriminate |].
    destruct (has_substring "error" s); cbn; discriminate.
  - destruct (existsb (is_str "port") elements); cbn; [discriminate |].
    destruct (existsb (is_str "error") elements); cbn; discriminate.
  - unfold dict_contains, dict_getitem.
    destruct (dict_get "port" d) as [port |] eqn:Hport.
    + cbn [call raise bind ret Monad_Proc proc_bind print_ app].
      intros H. inversion H. exists d, port. split; [reflexivity |]. split; [exact Hport |].
      reflexivity.
    + destruct (dict_get "error" d) as [error |]; cbn [call raise bind ret Monad_Proc proc_bind].
      * rewrite (handleError_described _ 8 None "main (): API returned an error response")
          by (first [lia | reflexivity]). discriminate.
      * rewrite (handleError_described _ 9 None "main (): API returned an unknown response")
          by (first [lia | reflexivity]). discriminate.
Qed.

End NormalEnd.

(** X5.  [main] reaches its normal end (exit status 0) only in one way:
    [isConnected] returned true, [getCredentials] returned credentials,
    [forwardPort], called with them on the fixed endpoint with the timeout of
    10 seconds, returned an object that has a key [port], and the last texts
    printed are the forwarded port, an empty line and the two closing lines. *)
Theorem main_normal_end_only_with_port (lib : Library) (w : World) (args : Args)
  (out : list string) :
  main lib w args = (out, Ret tt) ->
  exists credentials d port before,
    snd (isConnected w (debug args) INTERFACE) = Ret true
    /\ snd (getCredentials lib w (debug args) (credentialsfile args) INTERFACE)
       = Ret credentials
    /\ snd (forwardPort lib w (debug args) credentials ENDPOINT TIMEOUT) = Ret (PDict d)
    /\ dict_get "port" d = Some port
    /\ out = app before
               [ "Forwarded port: " ++ py_str port; EmptyString;
                 "Make sure to allow this port in your firewall and configure your applications to use it.";
                 "Have a nice day :)" ].
Proof.
  unfold main. intros H.
  apply bind_Ret_inv in H. destruct H as (p1 & ? & ? & _ & H & ->).
  apply bind_Ret_inv in H. destruct H as (p2 & ? & ? & _ & H & ->).
  apply bind_Ret_inv in H. destruct H as (p3 & ? & ? & _ & H & ->).
  apply bind_Ret_inv in H. destruct H as (p4 & ? & ? & _ & H & ->).
  apply bind_Ret_inv in H. destruct H as (p5 & ? & ? & _ & H & ->).
  apply bind_Ret_inv in H. destruct H as (p6 & ? & ? & _ & H & ->).
  apply bind_Ret_inv in H. destruct H as (o1 & connected & ? & Hconnected & H & ->).
  apply bind_Ret_inv in H. destruct H as (o3 & [] & ? & Hcheck & H & ->).
  apply bind_Ret_inv in H. destruct H as (o5 & credentials & ? & Hcredentials & H & ->).
  apply bind_Ret_inv in H. destruct H as (o7 & response & ? & Hresponse & H & ->).
  apply bind_Ret_inv in H. destruct H as (o9 & [] & ? & _ & H & ->).
  apply bind_Ret_inv in H. destruct H as (o11 & [] & ? & Hend & H & ->).
  apply bind_Ret_inv in H. destruct H as (o13 & [] & ? & Hline & H & ->).
  injection Hline as <-. injection H as <-.
  destruct (main_response_Ret response o11 tt Hend) as (d & port & -> & Hport & ->).
  destruct connected.
  2: { cbn [negb] in Hcheck. exfalso. eapply handleError_never_returns. exact Hcheck. }
  exists credentials, d, port.
  exists (app p1 (app p2 (app p3 (app p4 (app p5 (app p6
            (app o1 (app o3 (app o5 (app o7 o9)))))))))).
  unfold INTERFACE, ENDPOINT, TIMEOUT.
  rewrite Hconnected, Hcredentials, Hresponse. cbn [snd].
  split; [reflexivity |]. split; [reflexivity |]. split; [reflexivity |].
  split; [exact Hport |].
  repeat rewrite <- app_assoc. reflexivity.
Qed.

(** ** [main] from end to end *)

Section MainRuns.

Import Examples.

(** X6.  When the tunnel interface is not listed, or is listed without the
    IPv4 family, [main] prints its banner and the report and ends the process
    with exit code 1; the credentials file is not opened and nothing is sent,
    whatever the file system, the network and the library would answer. *)
Theorem main_not_connected_exit_1 (lib : Library) (w : World) (args : Args) :
  (forall t, dict_get INTERFACE (os_interfaces w) = Some t -> families_get AF_INET t = None) ->
  main lib w args
  = (app banner
       (app (debug_lines (debug args) ["Debugging print statements enabled"; EmptyString])
          [ "VPN interface: 'tun0' is not connected, please connect it first" ++ nl
            ++ "Be sure the INTERFACE variable is correctly set if your VPN is actually connected";
            EmptyString;
            "Exiting with exit status: 1, main (): VPN is not connected" ]),
     Exit 1).
Proof.
  unfold INTERFACE. intros Hnone.
  assert (isConnected w (debug args) "tun0" = ([], Ret false)) as Hconnected.
  { destruct (dict_get "tun0" (os_interfaces w)) as [t |] eqn:Ht.
    - rewrite (isConnected_listed w (debug args) "tun0" t Ht).
      unfold families_contains. now rewrite (Hnone t eq_refl).
    - now apply isConnected_unlisted. }
  unfold main. rewrite Hconnected.
  destruct (debug args); run;
    run_handleError 1 "main (): VPN is not connected"; reflexivity.
Qed.

Lemma main_not_connected_exit_1_witness :
  main library (world no_address (replies port_json None)) (mkArgs false "full.json")
  = (app banner
       [ "VPN interface: 'tun0' is not connected, please connect it first" ++ nl
         ++ "Be sure the INTERFACE variable is correctly set if your VPN is actually connected";
         EmptyString;
         "Exiting with exit status: 1, main (): VPN is not connected" ],
     Exit 1).
Proof.
  apply (main_not_connected_exit_1 library (world no_address (replies port_json None))
           (mkArgs false "full.json")).
  intros t Ht. injection Ht as <-. reflexivity.
Defined.

(** X7.  The whole success path.  With one IPv4 address [ip] on the tunnel,
    a credentials file that parses as an object with the three keys, and an
    endpoint that answers the POST of the credentials extended with
    [local_ip = ip] (sent to the fixed URL with the timeout of 10 seconds) by a
    body that decodes, unquotes and parses to an object with a key [port],
    [main] reaches its normal end; without the debugging flag it prints the
    banner, [Response recieved], the forwarded port and the two closing lines
    and nothing else. *)
Theorem main_forwards_the_port (lib : Library) (w : World) (args : Args)
  (t : families) (a : address) (ip : string)
  (f : file) (text : string) (d : dict pyval) (user pass client_id : pyval)
  (parameters : string) (connection : connection) (body responseString : string)
  (response : dict pyval) (port : pyval) :
  dict_get INTERFACE (os_interfaces w) = Some t ->
  families_get AF_INET t = Some [a] ->
  dict_get "addr" a = Some ip ->
  fs_open w (credentialsfile args) = inr f ->
  file_read f = inr text ->
  json_loads lib text = inr (PDict d) ->
  dict_get "user" d = Some user ->
  dict_get "pass" d = Some pass ->
  dict_get "client_id" d = Some client_id ->
  urlencode lib (PDict (dict_set "local_ip" (PStr ip) d)) = inr parameters ->
  net_urlopen w ENDPOINT parameters TIMEOUT = inr connection ->
  conn_read connection = inr body ->
  bytes_decode lib body
    match conn_content_charset connection with
    | Some charset => charset
    | None => "utf-8"
    end
  = inr responseString ->
  json_loads lib (unquote lib responseString) = inr (PDict response) ->
  dict_get "port" response = Some port ->
  exists out,
    main lib w args = (out, Ret tt)
    /\ (debug args = false ->
        out = app banner
                [ "Response recieved"; EmptyString;
                  "Forwarded port: " ++ py_str port; EmptyString;
                  "Make sure to allow this port in your firewall and configure your applications to use it.";
                  "Have a nice day :)" ]).
Proof.
  unfold INTERFACE, ENDPOINT, TIMEOUT.
  intros Ht Hl Haddr Hopen Hf Hjson Huser Hpass Hclient Hencode Hnet Hbody Hdecode Hparse Hport.
  pose proof (credentials_read_ok lib w (credentialsfile args) f text Hopen Hf) as Hread.
  rewrite Hjson in Hread.
  pose proof (getIPAddress_single w (debug args) "tun0" t a ip Ht Hl Haddr) as Hip.
  pose proof (getCredentials_complete lib w (debug args) (credentialsfile args) "tun0" d _ ip
                Hread Hip user pass client_id Huser Hpass Hclient) as Hcredentials.
  pose proof (forwardPort_received lib w (debug args) _ _ _ parameters Hencode connection body
                Hnet Hbody) as Hforward.
  cbv zeta in Hforward. rewrite Hdecode, Hparse in Hforward.
  pose proof (isConnected_listed w (debug args) "tun0" t Ht) as Hconnected.
  unfold families_contains in Hconnected. rewrite Hl in Hconnected.
  unfold main, main_response, py_contains, py_getitem, dict_contains, dict_getitem.
  rewrite Hconnected. cbn [bind Monad_Proc proc_bind negb ret].
  rewrite Hcredentials. cbn [bind Monad_Proc proc_bind negb ret].
  rewrite Hforward.
  destruct (debug args); run; rewrite Hport; run; eexists; (split; [reflexivity |]);
    intros Hdebug; [discriminate Hdebug | reflexivity].
Qed.

Lemma main_forwards_the_port_witness :
  exists out,
    main library (world one_address (replies "%7B%22port%22%3A%2012345%7D" None))
      (mkArgs true "full.json")
    = (out, Ret tt).
Proof.
  destruct (main_forwards_the_port
              library (world one_address (replies "%7B%22port%22%3A%2012345%7D" None))
              (mkArgs true "full.json")
              [(AF_INET, [tun0_address])] tun0_address "10.8.0.6"
              (mkFile (inr full_json)) full_json full_credentials
              (PStr "p1234567") (PStr "hunter2") (PStr "0a1b2c")
              "user=p1234567&pass=hunter2&client_id=0a1b2c&local_ip=10.8.0.6"
              (mkConnection (inr "%7B%22port%22%3A%2012345%7D") None)
              "%7B%22port%22%3A%2012345%7D" "%7B%22port%22%3A%2012345%7D"
              [("port", PInt 12345)] (PInt 12345)
              eq_refl eq_refl eq_refl eq_refl eq_refl eq_refl eq_refl eq_refl eq_refl
              eq_refl eq_refl eq_refl eq_refl eq_refl eq_refl)
    as (out & Hrun & _).
  exists out. exact Hrun.
Defined.

End MainRuns.

(** ** The printing helpers *)

Section PrintingHelpers.

(** X8.  The two printing helpers are complementary.  [debugPrint] with the
    flag on prints what [nonDebugPrint] prints with the flag off; under one
    value of the flag exactly one of the two prints the message (followed by
    an empty line when [printNewline] is set), and a message that is [None] is
    printed by neither; both always return. *)
Theorem debugPrint_nonDebugPrint_complement (DEBUG : bool) (message : option string)
  (printNewline : bool) :
  debugPrint DEBUG message printNewline = nonDebugPrint (negb DEBUG) message printNewline
  /\ snd (debugPrint DEBUG message printNewline) = Ret tt
  /\ snd (nonDebugPrint DEBUG message printNewline) = Ret tt
  /\ app (fst (debugPrint DEBUG message printNewline))
         (fst (nonDebugPrint DEBUG message printNewline))
     = match message with
       | None => []
       | Some text => text :: (if printNewline then [EmptyString] else [])
       end.
Proof.
  destruct message as [text |], DEBUG, printNewline; repeat split; reflexivity.
Qed.

Lemma length_append (a b : string) :
  String.length (a ++ b) = (String.length a + String.length b)%nat.
Proof. induction a as [|c a IH]; simpl; [reflexivity | now rewrite IH]. Qed.

Lemma length_join_nl (parts : list string) :
  String.length (join nl parts)
  = (list_sum (map String.length parts) + (length parts - 1))%nat.
Proof.
  unfold join. induction parts as [|x parts IH]; [reflexivity |].
  destruct parts as [|y parts].
  - simpl. lia.
  - change (String.concat nl (x :: y :: parts)) with (x ++ nl ++ String.concat nl (y :: parts)).
    rewrite !length_append, IH. simpl. lia.
Qed.

(** X9.  [concatStringToList] appends the elements to the message, one per
    line and with no newline after the last: an empty list leaves the message
    as it is, a first element followed by others is taken into the message
    with a newline, the text of every element occurs in the result, and the
    length of the result is that of the message and the texts plus one
    separator between neighbours. *)
Theorem concatStringToList_shape (message : string) (elements : list pyval) :
  concatStringToList message [] = message
  /\ (forall x, concatStringToList message [x] = message ++ py_str x)
  /\ (forall x y rest,
        concatStringToList message (x :: y :: rest)
        = concatStringToList (message ++ py_str x ++ nl) (y :: rest))
  /\ (forall x, In x elements ->
        occurs_in (py_str x) (concatStringToList message elements))
  /\ String.length (concatStringToList message elements)
     = (String.length message
        + list_sum (map (fun x => String.length (py_str x)) elements)
        + (length elements - 1))%nat.
Proof.
  split; [| split; [| split; [| split]]].
  - unfold concatStringToList. simpl. apply append_empty_r.
  - intros x. reflexivity.
  - intros x y rest. unfold concatStringToList.
    change (join nl (map py_str (x :: y :: rest)))
      with (py_str x ++ nl ++ join nl (map py_str (y :: rest))).
    now rewrite !append_assoc.
  - intros x Hin. now apply concatStringToList_lists.
  - unfold concatStringToList. rewrite length_append, length_join_nl, map_map, length_map.
    lia.
Qed.

End PrintingHelpers.

(** ** Edges of the error reporter and of the interface inspector *)

Section Edges.

Import Examples.

(** X10.  The table of descriptions is a Python list indexed by the code.
    With a code above 9 or below -10 the lookup of the description raises
    an [IndexError] after the message and the cause have been printed: there
    is no exit line and no [sys.exit].  With a code from -10 to -1 the index
    counts from the end: the description of [code + 10] is printed and the
    process exits with the negative code. *)
Theorem handleError_code_outside_table (message : string) (exitCode : Z)
  (exception : option exc) :
  (exitCode < -10 \/ 9 < exitCode ->
   exists e,
     handleError message exitCode exception
     = (app [message; EmptyString]
          match exception with
          | Some cause => [exc_str cause; EmptyString]
          | None => []
          end,
        Raised e)
     /\ exc_cls e = IndexError)
  /\ (-10 <= exitCode < 0 ->
      exists description,
        nth_error exitCodes (Z.to_nat (exitCode + 10)) = Some description
        /\ handleError message exitCode exception
           = (error_report message exitCode (option_map exc_str exception) description,
              Exit exitCode)).
Proof.
  split.
  - intros Hcode. unfold handleError, list_getitem.
    destruct ((exitCode <? - index_max - 1) || (index_max <? exitCode)).
    + destruct exception; eexists; split; reflexivity.
    + change (Z.of_nat (length exitCodes)) with 10. cbv zeta.
      destruct (Z.ltb_spec exitCode 0) as [Hneg | Hpos].
      * destruct (Z.leb_spec 0 (exitCode + 10)) as [Hle | _]; [lia |].
        destruct exception; eexists; split; reflexivity.
      * destruct (Z.ltb_spec exitCode 10) as [Hlt | _]; [lia |].
        rewrite andb_false_r. destruct exception; eexists; split; reflexivity.
  - intros Hcode.
    assert (exitCode = -10 \/ exitCode = -9 \/ exitCode = -8 \/ exitCode = -7
            \/ exitCode = -6 \/ exitCode = -5 \/ exitCode = -4 \/ exitCode = -3
            \/ exitCode = -2 \/ exitCode = -1) as Hcases by lia.
    destruct exception;
      repeat (destruct Hcases as [-> | Hcases]; [eexists; split; reflexivity |]);
      subst exitCode; eexists; split; reflexivity.
Qed.

Lemma handleError_code_outside_table_witness :
  (exists e,
      handleError "message" 10 (Some (mkExc OSError "cause"))
      = (["message"; EmptyString; "cause"; EmptyString], Raised e)
      /\ exc_cls e = IndexError)
  /\ exists description,
       handleError "message" (-1) None
       = (error_report "message" (-1) None description, Exit (-1)).
Proof.
  split.
  - apply (proj1 (handleError_code_outside_table "message" 10
                    (Some (mkExc OSError "cause")))).
    right. lia.
  - destruct (proj2 (handleError_code_outside_table "message" (-1) None))
      as (description & _ & Hrun); [lia |].
    exists description. exact Hrun.
Defined.

(** X11.  Called without the check of [isConnected], [getIPAddress] does not
    go through the error reporter when the lookup fails: an interface that is
    not listed gives the [ValueError] of [netifaces], a listed interface
    without the IPv4 family the [KeyError] of the family, an empty address
    list an [IndexError], and a single address without [addr] the [KeyError]
    of [addr]; nothing is printed. *)
Theorem getIPAddress_uncaught_lookups (w : World) (DEBUG : bool) (interface : string) :
  (dict_get interface (os_interfaces w) = None ->
   exists e, getIPAddress w DEBUG interface = ([], Raised e) /\ exc_cls e = ValueError)
  /\ (forall t,
        dict_get interface (os_interfaces w) = Some t ->
        families_get AF_INET t = None ->
        getIPAddress w DEBUG interface = ([], Raised (mkExc KeyError (decimal AF_INET))))
  /\ (forall t,
        dict_get interface (os_interfaces w) = Some t ->
        families_get AF_INET t = Some [] ->
        exists e, getIPAddress w DEBUG interface = ([], Raised e) /\ exc_cls e = IndexError)
  /\ (forall t a,
        dict_get interface (os_interfaces w) = Some t ->
        families_get AF_INET t = Some [a] ->
        dict_get "addr" a = None ->
        getIPAddress w DEBUG interface = ([], Raised (key_error "addr"))).
Proof.
  unfold getIPAddress, netifaces_ifaddresses, families_getitem, dict_getitem.
  split; [| split; [| split]].
  - intros ->. eexists. split; reflexivity.
  - intros t -> Hl. cbn [call bind ret Monad_Proc proc_bind]. now rewrite Hl.
  - intros t -> Hl. cbn [call bind ret Monad_Proc proc_bind]. rewrite Hl.
    eexists. split; reflexivity.
  - intros t a -> Hl Haddr. cbn [call bind ret Monad_Proc proc_bind]. rewrite Hl.
    cbn. now rewrite Haddr.
Qed.

Lemma getIPAddress_uncaught_lookups_witness :
  (exists e,
      getIPAddress (world no_address (inl timed_out)) false "eth7" = ([], Raised e)
      /\ exc_cls e = ValueError)
  /\ getIPAddress (world no_address (inl timed_out)) false "tun0"
     = ([], Raised (mkExc KeyError "2")).
Proof.
  split.
  - exact (proj1 (getIPAddress_uncaught_lookups (world no_address (inl timed_out)) false "eth7")
             eq_refl).
  - exact (proj1 (proj2 (getIPAddress_uncaught_lookups
                           (world no_address (inl timed_out)) false "tun0"))
             [(10, [[("addr", "fe80::1")]])] eq_refl eq_refl).
Defined.

End Edges.

(** ** Edges of the credential loader, the API client and the classifier *)

Section MoreEdges.

Import Examples.

(** X12.  A credentials file that is valid JSON but not an object (a list, a
    text, a number, [null]) passes the [try] block; once the local address is
    found, storing [local_ip] into it raises a [TypeError] that nothing
    catches: the file is not reported as malformed (exit code 3) nor as
    lacking keys (exit code 4). *)
Theorem getCredentials_not_an_object (lib : Library) (w : World) (DEBUG : bool)
  (credentialsPath interface : string) (f : file) (text : string) (v : pyval)
  (out_ip : list string) (ip : string) :
  fs_open w credentialsPath = inr f ->
  file_read f = inr text ->
  json_loads lib text = inr v ->
  (forall d, v <> PDict d) ->
  getIPAddress w DEBUG interface = (out_ip, Ret ip) ->
  exists e,
    getCredentials lib w DEBUG credentialsPath interface
    = (app (debug_lines DEBUG
              ["Using credentials file: '" ++ credentialsPath ++ "'"; EmptyString])
           out_ip,
       Raised e)
    /\ exc_cls e = TypeError.
Proof.
  intros Hopen Hf Hjson Hv Hip. unfold getCredentials. rewrite Hopen.
  destruct DEBUG; run; rewrite Hf; run; rewrite Hjson; run; rewrite Hip; run;
    (destruct v as [| b | n | t | s | elements | d];
     [| | | | | | exfalso; now apply (Hv d)]);
    run; rewrite ?app_nil_r; eexists; split; reflexivity.
Qed.

Lemma getCredentials_not_an_object_witness :
  exists e,
    getCredentials
      (mkLibrary (fun _ => inr (PList [])) (bytes_decode library) (unquote library)
         (urlencode library))
      (world one_address (inl timed_out)) false "empty.json" "tun0"
    = ([], Raised e)
    /\ exc_cls e = TypeError.
Proof.
  exact (getCredentials_not_an_object
           (mkLibrary (fun _ => inr (PList [])) (bytes_decode library) (unquote library)
              (urlencode library))
           (world one_address (inl timed_out)) false "empty.json" "tun0"
           (mkFile (inr empty_json)) empty_json (PList []) [] "10.8.0.6"
           eq_refl eq_refl eq_refl ltac:(discriminate) eq_refl).
Defined.

(** X13.  The [except] clause of [forwardPort] names [URLError] and
    [HTTPError] and nothing else: an exception of any other class raised by
    [urlopen] or by [read] (a [TimeoutError], a plain [OSError], ...) is not
    reported with exit code 6; it leaves [forwardPort] as it is, after the
    debugging line only. *)
Theorem forwardPort_catches_URLError_only (lib : Library) (w : World) (DEBUG : bool)
  (credentials : pyval) (endpointURL : string) (timeout : Z) (parameters : string)
  (e : exc) :
  urlencode lib credentials = inr parameters ->
  transport_raises w endpointURL parameters timeout e ->
  isinstance e URLError = false ->
  forwardPort lib w DEBUG credentials endpointURL timeout
  = (debug_lines DEBUG ["Posting to endpoint: '" ++ endpointURL ++ "'"; EmptyString],
     Raised e).
Proof.
  intros Hencode Hraises Hcls.
  now apply forwardPort_uncaught with (parameters := parameters).
Qed.

Lemma forwardPort_catches_URLError_only_witness :
  forwardPort library (world one_address (inl (mkExc TimeoutError "timed out"))) true
    (PDict full_credentials) "https://example.invalid/port" 10
  = (["Posting to endpoint: 'https://example.invalid/port'"; EmptyString],
     Raised (mkExc TimeoutError "timed out")).
Proof.
  exact (forwardPort_catches_URLError_only
           library (world one_address (inl (mkExc TimeoutError "timed out"))) true
           (PDict full_credentials) "https://example.invalid/port" 10
           "user=p1234567&pass=hunter2&client_id=0a1b2c" (mkExc TimeoutError "timed out")
           eq_refl (or_introl eq_refl) eq_refl).
Defined.

(** X14.  Exit code 7 is for the JSON parser alone.  When the body of a
    received response cannot be decoded (an unknown charset, bytes that are
    not valid in it), the exception of [decode] leaves [forwardPort] uncaught,
    also when it is a [ValueError] such as [UnicodeDecodeError]: the decoding
    stands outside the [try].  And an exception of the parser that is not a
    [ValueError] is not caught either. *)
Theorem forwardPort_decode_error_uncaught (lib : Library) (w : World) (DEBUG : bool)
  (credentials : pyval) (endpointURL : string) (timeout : Z) (parameters : string)
  (connection : connection) (body : string) :
  urlencode lib credentials = inr parameters ->
  net_urlopen w endpointURL parameters timeout = inr connection ->
  conn_read connection = inr body ->
  (forall e,
      bytes_decode lib body
        match conn_content_charset connection with
        | Some charset => charset
        | None => "utf-8"
        end
      = inl e ->
      forwardPort lib w DEBUG credentials endpointURL timeout
      = (debug_lines DEBUG ["Posting to endpoint: '" ++ endpointURL ++ "'"; EmptyString],
         Raised e))
  /\ (forall responseString e,
        bytes_decode lib body
          match conn_content_charset connection with
          | Some charset => charset
          | None => "utf-8"
          end
        = inr responseString ->
        json_loads lib (unquote lib responseString) = inl e ->
        isinstance e ValueError = false ->
        snd (forwardPort lib w DEBUG credentials endpointURL timeout) = Raised e).
Proof.
  intros Hencode Hnet Hbody.
  pose proof (forwardPort_received lib w DEBUG credentials endpointURL timeout parameters
                Hencode connection body Hnet Hbody) as Hrun.
  cbv zeta in Hrun. split.
  - intros e Hdecode. now rewrite Hdecode in Hrun.
  - intros responseString e Hdecode Hjson Hcls. rewrite Hdecode, Hjson, Hcls in Hrun.
    now rewrite Hrun.
Qed.

Lemma forwardPort_decode_error_uncaught_witness :
  forwardPort library (world one_address (replies port_json (Some "latin-1"))) false
    (PDict full_credentials) "https://example.invalid/port" 10
  = ([], Raised (mkExc LookupError "unknown encoding: latin-1")).
Proof.
  exact (proj1 (forwardPort_decode_error_uncaught
                  library (world one_address (replies port_json (Some "latin-1"))) false
                  (PDict full_credentials) "https://example.invalid/port" 10
                  "user=p1234567&pass=hunter2&client_id=0a1b2c"
                  (mkConnection (inr port_json) (Some "latin-1")) port_json
                  eq_refl eq_refl eq_refl)
           (mkExc LookupError "unknown encoding: latin-1") eq_refl).
Defined.

(** X15.  [forwardPort] returns whatever JSON value the body holds.  On a
    response that is not an object (a list, a text, a number, a boolean,
    [null]) the end of [main] prints nothing and raises a [TypeError] or an
    [AttributeError] that nothing catches: such a response is neither a
    success nor one of the reported errors 8 and 9. *)
Theorem main_response_not_an_object (response : pyval) :
  (forall d, response <> PDict d) ->
  exists e,
    main_response response = ([], Raised e)
    /\ (exc_cls e = TypeError \/ exc_cls e = AttributeError).
Proof.
  intros Hv. unfold main_response.
  destruct response as [| b | n | t | s | elements | d];
    [| | | | | | exfalso; now apply (Hv d)];
    cbn [py_contains py_getitem py_items call raise bind ret Monad_Proc proc_bind];
    try (eexists; split; [reflexivity | now left]).
  - destruct (has_substring "port" s); cbn;
      [eexists; split; [reflexivity | now left] |].
    destruct (has_substring "error" s); cbn;
      eexists; (split; [reflexivity |]); [now left | now right].
  - destruct (existsb (is_str "port") elements); cbn;
      [eexists; split; [reflexivity | now left] |].
    destruct (existsb (is_str "error") elements); cbn;
      eexists; (split; [reflexivity |]); [now left | now right].
Qed.

Lemma main_response_not_an_object_witness :
  exists e,
    main_response (PList [PStr "port"]) = ([], Raised e)
    /\ (exc_cls e = TypeError \/ exc_cls e = AttributeError).
Proof.
  exact (main_response_not_an_object (PList [PStr "port"]) ltac:(discriminate)).
Defined.

(** X16.  A successful [getCredentials] prints nothing unless debugging is
    on; with debugging on it prints, in this order, the path of the file, the
    local address, and the user name, the password and the client id as they
    are in the file. *)
Theorem getCredentials_prints_when_debugging (lib : Library) (w : World)
  (credentialsPath interface : string) (f : file) (text : string) (d : dict pyval)
  (t : families) (a : address) (ip : string) (user pass client_id : pyval) :
  fs_open w credentialsPath = inr f ->
  file_read f = inr text ->
  json_loads lib text = inr (PDict d) ->
  dict_get interface (os_interfaces w) = Some t ->
  families_get AF_INET t = Some [a] ->
  dict_get "addr" a = Some ip ->
  dict_get "user" d = Some user ->
  dict_get "pass" d = Some pass ->
  dict_get "client_id" d = Some client_id ->
  fst (getCredentials lib w false credentialsPath interface) = []
  /\ fst (getCredentials lib w true credentialsPath interface)
     = [ "Using credentials file: '" ++ credentialsPath ++ "'"; EmptyString;
         "Local IP for VPN interface '" ++ interface ++ "': " ++ ip; EmptyString;
         "Username: '" ++ py_str user ++ "'";
         "Password: '" ++ py_str pass ++ "'";
         "Client ID: '" ++ py_str client_id ++ "'"; EmptyString ].
Proof.
  intros Hopen Hf Hjson Ht Hl Haddr Huser Hpass Hclient.
  pose proof (credentials_read_ok lib w credentialsPath f text Hopen Hf) as Hread.
  rewrite Hjson in Hread.
  split.
  - rewrite (getCredentials_complete lib w false credentialsPath interface d _ ip Hread
               (getIPAddress_single w false interface t a ip Ht Hl Haddr)
               user pass client_id Huser Hpass Hclient).
    reflexivity.
  - rewrite (getCredentials_complete lib w true credentialsPath interface d _ ip Hread
               (getIPAddress_single w true interface t a ip Ht Hl Haddr)
               user pass client_id Huser Hpass Hclient).
    reflexivity.
Qed.

Lemma getCredentials_prints_when_debugging_witness :
  fst (getCredentials library (world one_address (inl timed_out)) false "full.json" "tun0") = []
  /\ fst (getCredentials library (world one_address (inl timed_out)) true "full.json" "tun0")
     = [ "Using credentials file: 'full.json'"; EmptyString;
         "Local IP for VPN interface 'tun0': 10.8.0.6"; EmptyString;
         "Username: 'p1234567'"; "Password: 'hunter2'"; "Client ID: '0a1b2c'"; EmptyString ].
Proof.
  exact (getCredentials_prints_when_debugging
           library (world one_address (inl timed_out)) "full.json" "tun0"
           (mkFile (inr full_json)) full_json full_credentials
           [(AF_INET, [tun0_address])] tun0_address "10.8.0.6"
           (PStr "p1234567") (PStr "hunter2") (PStr "0a1b2c")
           eq_refl eq_refl eq_refl eq_refl eq_refl eq_refl eq_refl eq_refl eq_refl).
Defined.

End MoreEdges.

(** ** The order of the checks in [getCredentials] *)

Section AddressFirst.

Import Examples.

(** X17.  In [getCredentials] the local address is looked up as soon as the
    file has parsed, before anything is done with the parsed value.  With
    more than one IPv4 address on the interface the process therefore ends
    with exit code 5 whatever the file holds: a file without the required
    keys, with some of them, or one that is not an object at all. *)
Theorem getCredentials_address_first (lib : Library) (w : World) (DEBUG : bool)
  (credentialsPath interface : string) (f : file) (text : string) (v : pyval)
  (t : families) (l : list address) :
  fs_open w credentialsPath = inr f ->
  file_read f = inr text ->
  json_loads lib text = inr v ->
  dict_get interface (os_interfaces w) = Some t ->
  families_get AF_INET t = Some l ->
  (1 < length l)%nat ->
  exists message,
    getCredentials lib w DEBUG credentialsPath interface
    = (app (debug_lines DEBUG
              ["Using credentials file: '" ++ credentialsPath ++ "'"; EmptyString])
         [ message; EmptyString;
           "Exiting with exit status: 5, getIPAddress (): Found more addresses than expected" ],
       Exit 5).
Proof.
  intros Hopen Hf Hjson Ht Hl Hlen.
  pose proof (getIPAddress_many w DEBUG interface t l Ht Hl Hlen) as Hip.
  unfold getCredentials. rewrite Hopen.
  destruct DEBUG; run; rewrite Hf; run; rewrite Hjson; run; rewrite Hip; run;
    eexists; reflexivity.
Qed.

Lemma getCredentials_address_first_witness :
  exists message,
    getCredentials library (world two_addresses (inl timed_out)) false "full.json" "tun0"
    = ([ message; EmptyString;
         "Exiting with exit status: 5, getIPAddress (): Found more addresses than expected" ],
       Exit 5).
Proof.
  destruct (getCredentials_address_first
              library (world two_addresses (inl timed_out)) false "full.json" "tun0"
              (mkFile (inr full_json)) full_json (PDict full_credentials)
              [(AF_INET, [tun0_address; second_address])] [tun0_address; second_address]
              eq_refl eq_refl eq_refl eq_refl eq_refl)
    as [message Hrun]; [simpl; lia |].
  exists message. exact Hrun.
Defined.

End AddressFirst.

(** ** Runs of the general statements *)

Section GeneralWitnesses.

Import Examples.

Lemma component_exit_codes_witness : In 5 [5].
Proof.
  exact (proj1 (proj2 (component_exit_codes library
                         (world two_addresses (inl timed_out)) false))
           "tun0"
           (fst (getIPAddress (world two_addresses (inl timed_out)) false "tun0"))
           5 eq_refl).
Defined.

Lemma main_outcome_ignores_debug_witness :
  snd (main library (world one_address (replies error_json None)) (mkArgs true "full.json"))
  = snd (main library (world one_address (replies error_json None)) (mkArgs false "full.json")).
Proof.
  exact (main_outcome_ignores_debug library (world one_address (replies error_json None))
           (mkArgs true "full.json") (mkArgs false "full.json") eq_refl).
Defined.

Lemma main_normal_end_only_with_port_witness :
  exists credentials d port before,
    snd (isConnected (world one_address (replies port_json None)) false INTERFACE) = Ret true
    /\ snd (getCredentials library (world one_address (replies port_json None)) false
              "full.json" INTERFACE)
       = Ret credentials
    /\ snd (forwardPort library (world one_address (replies port_json None)) false
              credentials ENDPOINT TIMEOUT)
       = Ret (PDict d)
    /\ dict_get "port" d = Some port
    /\ app banner
         [ "Response recieved"; EmptyString; "Forwarded port: 12345"; EmptyString;
           "Make sure to allow this port in your firewall and configure your applications to use it.";
           "Have a nice day :)" ]
       = app before
           [ "Forwarded port: " ++ py_str port; EmptyString;
             "Make sure to allow this port in your firewall and configure your applications to use it.";
             "Have a nice day :)" ].
Proof.
  exact (main_normal_end_only_with_port library (world one_address (replies port_json None))
           (mkArgs false "full.json") _ eq_refl).
Defined.

End GeneralWitnesses.

(** ** The command line *)

Section CommandLine.

Import Examples.

Variable lib : Library.
Variable w : World.

(** When argparse ends the process or raises, [main] stops after the banner
    and what argparse printed. *)
Lemma main_with_parser_stopped (printed : list string) (r : outcome Args) :
  (forall args, r <> Ret args) ->
  main_with_parser lib w (printed, r)
  = (app banner printed,
     match r with
     | Ret _ => Ret tt
     | Exit code => Exit code
     | Raised e => Raised e
     end).
Proof.
  intros Hstopped. destruct r as [args | code | e]; [now destruct (Hstopped args) | |];
    reflexivity.
Qed.

(** When the command line parses, [main] goes on as it does on the parsed
    arguments, after what argparse printed. *)
Lemma main_with_parser_parsed (printed : list string) (args : Args) :
  exists rest,
    main lib w args = (app banner rest, snd (main lib w args))
    /\ main_with_parser lib w (printed, Ret args)
       = (app banner (app printed rest), snd (main lib w args)).
Proof.
  unfold main, main_with_parser.
  cbn [bind ret Monad_Proc proc_bind print_ app].
  match goal with
  | |- context [let (out', r) := ?rest in _] =>
      lazymatch rest with
      | (let (_, _) := _ in _) => fail
      | _ => destruct rest as [out r]
      end
  end.
  exists out. cbn [snd]. split; reflexivity.
Qed.

End CommandLine.

(** X1.  When [main] ends through [sys.exit], either argparse ended it (help
    or usage error: argparse's own exit status, after the banner and what
    argparse printed), or the code is one of 1 to 9: every call of the error
    reporter in the script passes a code of the table. *)
Theorem main_with_parser_exit_codes (lib : Library) (w : World) (parse_args : Proc Args)
  (out : list string) (code : Z) :
  main_with_parser lib w parse_args = (out, Exit code) ->
  (exists printed, parse_args = (printed, Exit code) /\ out = app banner printed)
  \/ In code [1; 2; 3; 4; 5; 6; 7; 8; 9].
Proof.
  destruct parse_args as [printed [args | code' | e]].
  - destruct (main_with_parser_parsed lib w printed args) as (rest & Hmain & ->).
    intros [= _ Hexit]. right.
    apply (main_exit_codes lib w args (app banner rest) code). now rewrite Hmain, Hexit.
  - rewrite main_with_parser_stopped by discriminate. intros [= <- <-]. left. now exists printed.
  - rewrite main_with_parser_stopped by discriminate. discriminate.
Qed.

(** X3.  When [main] ends through [sys.exit] and it was not argparse that
    ended it, the last text printed is the exit line: the code, which is not
    negative, and the description the table has for that code.  An exit of
    argparse comes after the banner and argparse's own text, without an exit
    line of the script. *)
Theorem main_with_parser_exit_reported (lib : Library) (w : World)
  (parse_args : Proc Args) (out : list string) (code : Z) :
  main_with_parser lib w parse_args = (out, Exit code) ->
  (exists printed, parse_args = (printed, Exit code) /\ out = app banner printed)
  \/ (exists before description,
        nth_error exitCodes (Z.to_nat code) = Some description
        /\ 0 <= code
        /\ out = app before
                   ["Exiting with exit status: " ++ decimal code ++ ", " ++ description]).
Proof.
  destruct parse_args as [printed [args | code' | e]].
  - intros Hrun. right. revert out code Hrun.
    change (exit_reported (main_with_parser lib w (printed, Ret args))).
    unfold main_with_parser, isConnected, getCredentials, getIPAddress, forwardPort,
      main_response.
    reported. intros out code H. discriminate H.
  - rewrite main_with_parser_stopped by discriminate. intros [= <- <-]. left. now exists printed.
  - rewrite main_with_parser_stopped by discriminate. discriminate.
Qed.

Section CommandLineRuns.

Import Examples.

Lemma main_with_parser_exit_codes_witness :
  ((exists printed,
       (@nil string, @Ret Args (mkArgs false "full.json")) = (printed, Exit 8)
       /\ app banner
            [ "Response recieved"; EmptyString; "API returned an error: bad token";
              EmptyString;
              "Exiting with exit status: 8, main (): API returned an error response" ]
          = app banner printed)
   \/ In 8 [1; 2; 3; 4; 5; 6; 7; 8; 9])
  /\ ((exists printed,
          (@nil string, @Exit Args 2) = (printed, Exit 2) /\ app banner [] = app banner printed)
      \/ In 2 [1; 2; 3; 4; 5; 6; 7; 8; 9]).
Proof.
  split.
  - exact (main_with_parser_exit_codes library
             (world one_address (replies error_json None))
             ([], Ret (mkArgs false "full.json")) _ 8 eq_refl).
  - exact (main_with_parser_exit_codes library
             (world one_address (replies error_json None))
             ([], Exit 2) (app banner []) 2 eq_refl).
Defined.

Lemma main_with_parser_exit_reported_witness :
  (exists printed,
      (@nil string, @Ret Args (mkArgs false "full.json")) = (printed, Exit 8)
      /\ app banner
           [ "Response recieved"; EmptyString; "API returned an error: bad token";
             EmptyString;
             "Exiting with exit status: 8, main (): API returned an error response" ]
         = app banner printed)
  \/ (exists before description,
         nth_error exitCodes (Z.to_nat 8) = Some description
         /\ 0 <= 8
         /\ app banner
              [ "Response recieved"; EmptyString; "API returned an error: bad token";
                EmptyString;
                "Exiting with exit status: 8, main (): API returned an error response" ]
            = app before
                ["Exiting with exit status: " ++ decimal 8 ++ ", " ++ description]).
Proof.
  exact (main_with_parser_exit_reported library
           (world one_address (replies error_json None))
           ([], Ret (mkArgs false "full.json")) _ 8 eq_refl).
Defined.


End CommandLineRuns.
